(** * InventorySourceForm: the inventory-source form of the web console

    A shallow embedding of
    [awx/ui_next/src/screens/Inventory/shared/InventorySourceForm.jsx]
    and the properties its specification states about it.

    The component is written against three collaborators: the JavaScript
    object model (objects used as string-keyed maps, truthiness, [||],
    [?.], [===]), the Formik form engine (a record of current and initial
    values with [setFieldValue] and [resetForm]) and React rendering (a
    function from props and state to a tree).  Each is embedded below to the
    extent the component uses it; the component's own functions follow the
    source line by line. *)

From Stdlib Require Import ZArith.
From stdpp Require Import gmap strings list fin_maps.

Set Warnings "-register-all".

Local Open Scope string_scope.

(** ** JavaScript values *)

(** The values the component handles.  Numbers are the integers the form
    stores (a cache timeout, a verbosity level); objects are string-keyed
    maps. *)
Inductive js_value : Type :=
  | VUndefined
  | VNull
  | VBool (b : bool)
  | VNum (n : Z)
  | VStr (s : string)
  | VObj (o : gmap string js_value).

Abbreviation obj := (gmap string js_value).

(** ToBoolean: [undefined], [null], [false], [0] and [''] are falsy, every
    object is truthy. *)
Definition truthy (v : js_value) : bool :=
  match v with
  | VUndefined | VNull => false
  | VBool b => b
  | VNum n => negb (n =? 0)%Z
  | VStr s => negb (bool_decide (s = ""))
  | VObj _ => true
  end.

(** [a || b] *)
Definition js_or (a b : js_value) : js_value :=
  if truthy a then a else b.

(** [o.k] on an object: a missing property reads [undefined]. *)
Definition get (o : obj) (k : string) : js_value :=
  default VUndefined (o !! k).

(** [v?.k]: [undefined] when [v] is [undefined] or [null]; the property of
    an object; [undefined] on a primitive, none of the names the form reads
    being a member of a primitive's prototype. *)
Definition opt_get (v : js_value) (k : string) : js_value :=
  match v with
  | VObj o => get o k
  | _ => VUndefined
  end.

(** [v === s] for a string literal or string variable [s]: strict equality
    with a string holds for that same string only. *)
Definition strict_eq_str (v : js_value) (s : string) : bool :=
  match v with
  | VStr s' => bool_decide (s' = s)
  | _ => false
  end.

(** The string literal ['---\n']: three dashes and a line feed. *)
Definition yaml_start : string := "---" ++ String (Ascii.ascii_of_nat 10) "".

(** ** The form engine (Formik) *)

Module Formik.

(** What [useFormikContext()] hands to the component: the current values
    and the initial values. *)
Record formik : Type := {
  values : obj;
  initialValues : obj;
}.

(** [setFieldValue(label, v)] for a label that is a plain key, as is every
    label this component passes: the keys of its [defaults] literal and the
    names of its inputs.  The key is removed from the current values when
    the value is [undefined] and written otherwise.  (A label with a dot or
    a bracket is a path into nested values for the form engine; the form
    has no field of such a name, and the properties below that depend on
    what an edit writes keep to edits of the declared fields.) *)
Definition setFieldValue (label : string) (v : js_value) (f : formik)
  : formik :=
  {| values :=
       match v with
       | VUndefined => delete label (values f)
       | _ => <[label := v]> (values f)
       end;
     initialValues := initialValues f |}.

(** [resetForm({ values })]: the given values become the current values
    and the values later resets start from. *)
Definition resetForm (next : obj) (f : formik) : formik :=
  {| values := next; initialValues := next |}.

(** [useField(name)]: the field's name and current value, spread onto the
    widget bound to it. *)
Record field_input : Type := {
  name : string;
  value : js_value;
}.

Definition useField (fieldName : string) (f : formik) : field_input :=
  {| name := fieldName; value := get (values f) fieldName |}.

(** The widget's change handler as [useField] provides it: the bound field
    is written. *)
Definition onChange (fld : field_input) (v : js_value) (f : formik)
  : formik :=
  setFieldValue (name fld) v f.

End Formik.

(** ** Select options and the options payload *)

(** An entry of an [AnsibleSelect]'s [data].  An entry written without
    [isDisabled] is an enabled one. *)
Record select_option : Type := {
  opt_value : js_value;
  opt_key : js_value;
  opt_label : js_value;
  isDisabled : bool;
}.

(** The OPTIONS response, of which the component reads
    [options.actions.GET.source.choices]: an array of [[code, label]]
    pairs. *)
Record source_options : Type := {
  choices : list (js_value * js_value);
}.

(** [!(v === s)] *)
Definition strict_ne_str (v : js_value) (s : string) : bool :=
  negb (strict_eq_str v s).

Definition buildSourceChoiceOptions (options : source_options)
  : list select_option :=
  let sourceChoices :=
    map (fun '(choice, label) =>
           {| opt_label := label; opt_key := choice; opt_value := choice;
              isDisabled := false |})
        (choices options) in
  filter (fun o => strict_ne_str (opt_key o) "file" = true) sourceChoices.

(** ** The form fields: [InventorySourceFormFields] *)

(** The provider sub-forms, opaque units of [./InventorySourceSubForms];
    four of them receive the options payload. *)
Inductive sub_form : Type :=
  | AzureSubForm (sourceOptions : source_options)
  | CloudFormsSubForm
  | CustomScriptSubForm
  | EC2SubForm (sourceOptions : source_options)
  | GCESubForm (sourceOptions : source_options)
  | OpenStackSubForm
  | SCMSubForm
  | SatelliteSubForm
  | TowerSubForm
  | VMwareSubForm (sourceOptions : source_options)
  | VirtualizationSubForm.

(** A rendered [AnsibleSelect]: its id, its options and the field it is
    bound to. *)
Record ansible_select : Type := {
  select_id : string;
  data : list select_option;
  bound : Formik.field_input;
}.

(** The [SubFormLayout] block: the heading and, under it, the sub-form the
    lookup produced, if it produced one. *)
Record sub_form_layout : Type := {
  title : string;
  body : option sub_form;
}.

(** What [InventorySourceFormFields] renders after the name and description
    inputs: the source select, the environment group when its guard holds,
    the sub-form block when its guard holds. *)
Record fields_view : Type := {
  source_select : ansible_select;
  venv_group : option ansible_select;
  sub_form_block : option sub_form_layout;
}.

Section Fields.

(** [i18n._(t`...`)]: the translation of a message. *)
Variable i18n : string -> string.

Definition defaultVenv : select_option :=
  {| opt_label := VStr (i18n "Use Default Ansible Environment");
     opt_value := VStr "/venv/ansible/";
     opt_key := VStr "default";
     isDisabled := false |}.

(** [value => ({ value, label: value, key: value })] *)
Definition venv_option (v : string) : select_option :=
  {| opt_value := VStr v; opt_label := VStr v; opt_key := VStr v;
     isDisabled := false |}.

(** The object literal [defaults] of [resetSubFormFields], in the order
    [Object.keys] lists it. *)
Definition defaults (sourceType : string) : list (string * js_value) :=
  [ ("credential", VNull);
    ("group_by", VStr "");
    ("instance_filters", VStr "");
    ("overwrite", VBool false);
    ("overwrite_vars", VBool false);
    ("source", VStr sourceType);
    ("source_path", VStr "");
    ("source_project", VNull);
    ("source_regions", VStr "");
    ("source_script", VNull);
    ("source_vars", VStr yaml_start);
    ("update_cache_timeout", VNum 0);
    ("update_on_launch", VBool false);
    ("update_on_project_update", VBool false);
    ("verbosity", VNum 1) ].

(** [resetSubFormFields]; [sourceType] is the string the select's change
    event carries. *)
Definition resetSubFormFields (sourceType : string) (f : Formik.formik)
  : Formik.formik :=
  if strict_eq_str (get (Formik.initialValues f) "source") sourceType then
    Formik.resetForm
      (<["source" := VStr sourceType]>
         (<["custom_virtualenv" := get (Formik.values f) "custom_virtualenv"]>
            (<["description" := get (Formik.values f) "description"]>
               (<["name" := get (Formik.values f) "name"]>
                  (Formik.initialValues f)))))
      f
  else
    foldl (fun acc '(label, v) => Formik.setFieldValue label v acc)
          f (defaults sourceType).

(** The object literal the sub-form is looked up in. *)
Definition sub_forms (sourceOptions : source_options)
  : gmap string sub_form :=
  list_to_map
    [ ("azure_rm", AzureSubForm sourceOptions);
      ("cloudforms", CloudFormsSubForm);
      ("custom", CustomScriptSubForm);
      ("ec2", EC2SubForm sourceOptions);
      ("gce", GCESubForm sourceOptions);
      ("openstack", OpenStackSubForm);
      ("rhv", VirtualizationSubForm);
      ("satellite6", SatelliteSubForm);
      ("scm", SCMSubForm);
      ("tower", TowerSubForm);
      ("vmware", VMwareSubForm sourceOptions) ].

(** [{...}[v]]: a string is looked up as it is; any other value is first
    turned into a string ("undefined", "null", "true", digits, ...), none
    of which is a key of the literal. *)
Definition lookup_sub_form (sourceOptions : source_options) (v : js_value)
  : option sub_form :=
  match v with
  | VStr code => sub_forms sourceOptions !! code
  | _ => None
  end.

Definition InventorySourceFormFields
    (sourceOptions : source_options)
    (custom_virtualenvs : option (list string))
    (f : Formik.formik) : fields_view :=
  let sourceField := Formik.useField "source" f in
  let venvField := Formik.useField "custom_virtualenv" f in
  {| source_select :=
       {| select_id := "source";
          data :=
            {| opt_value := VStr ""; opt_key := VStr "";
               opt_label := VStr (i18n "Choose a source");
               isDisabled := true |}
            :: buildSourceChoiceOptions sourceOptions;
          bound := sourceField |};
     venv_group :=
       match custom_virtualenvs with
       | None => None
       | Some venvs =>
           if (1 <? length venvs)%nat then
             Some
               {| select_id := "custom-virtualenv";
                  data :=
                    defaultVenv
                    :: map venv_option
                           (filter
                              (fun v =>
                                 strict_ne_str (VStr v)
                                   "/venv/ansible/" = true)
                              venvs);
                  bound := venvField |}
           else None
       end;
     sub_form_block :=
       if strict_ne_str (Formik.value sourceField) "" then
         Some {| title := i18n "Source details";
                 body :=
                   lookup_sub_form sourceOptions (Formik.value sourceField) |}
       else None |}.

(** The select's [onChange] handler: [resetSubFormFields(value)]. *)
Definition source_onChange (v : string) (f : Formik.formik)
  : Formik.formik :=
  resetSubFormFields v f.

End Fields.

(** ** The form: [InventorySourceForm] *)

(** The [initialValues] literal; [source] is the prop, [undefined] when the
    form creates a new source. *)
Definition initialValues (source : js_value) : obj :=
  list_to_map
    [ ("credential",
        js_or (opt_get (opt_get source "summary_fields") "credential") VNull);
      ("custom_virtualenv",
        js_or (opt_get source "custom_virtualenv") (VStr ""));
      ("description", js_or (opt_get source "description") (VStr ""));
      ("group_by", js_or (opt_get source "group_by") (VStr ""));
      ("instance_filters", js_or (opt_get source "instance_filters") (VStr ""));
      ("name", js_or (opt_get source "name") (VStr ""));
      ("overwrite", js_or (opt_get source "overwrite") (VBool false));
      ("overwrite_vars", js_or (opt_get source "overwrite_vars") (VBool false));
      ("source", js_or (opt_get source "source") (VStr ""));
      ("source_path",
        if strict_eq_str (opt_get source "source_path") ""
        then VStr "/ (project root)" else VStr "");
      ("source_project",
        js_or (opt_get (opt_get source "summary_fields") "source_project")
              VNull);
      ("source_regions", js_or (opt_get source "source_regions") (VStr ""));
      ("source_script",
        js_or (opt_get (opt_get source "summary_fields") "source_script")
              VNull);
      ("source_vars", js_or (opt_get source "source_vars") (VStr yaml_start));
      ("update_cache_timeout",
        js_or (opt_get source "update_cache_timeout") (VNum 0));
      ("update_on_launch",
        js_or (opt_get source "update_on_launch") (VBool false));
      ("update_on_project_update",
        js_or (opt_get source "update_on_project_update") (VBool false));
      ("verbosity", js_or (opt_get source "verbosity") (VNum 1)) ].

(** What the component destructures from [useRequest]: [isLoading],
    [error] and [result] ([None] is the initial [null]). *)
Record request_state : Type := {
  isLoading : bool;
  error : js_value;
  result : option source_options;
}.

(** The three things the component can return. *)
Inductive view : Type :=
  | ContentError (err : js_value)
  | ContentLoading
  | FormikForm (form_initialValues : obj) (sourceOptions : source_options)
               (submitError : js_value).

Definition InventorySourceForm
    (source submitError : js_value) (req : request_state) : view :=
  if truthy (error req) then ContentError (error req)
  else
    match result req with
    | None => ContentLoading
    | Some sourceOptions =>
        if isLoading req then ContentLoading
        else FormikForm (initialValues source) sourceOptions submitError
    end.

(** The form as Formik mounts it on [initialValues]. *)
Definition mount (source : js_value) : Formik.formik :=
  {| Formik.values := initialValues source;
     Formik.initialValues := initialValues source |}.

(** The [onSubmit] prop given to Formik: [values => { onSubmit(values); }]. *)
Definition Formik_onSubmit {R : Type} (onSubmit : obj -> R) (vals : obj) : R :=
  onSubmit vals.

(** Modelled from the spec: the form engine's submit, which the sources
    only call, with the errors of the fields' validation as a parameter.
    Any error blocks the submit; without one the [onSubmit] prop given to
    Formik is called on the current values. *)
Definition submitForm {R : Type} (errors : list (string * string))
    (onSubmit : obj -> R) (f : Formik.formik) : option R :=
  match errors with
  | [] => Some (Formik_onSubmit onSubmit (Formik.values f))
  | _ :: _ => None
  end.

(** ** The form in use *)

(** The keys of the [initialValues] literal. *)
Definition declared_fields : list string :=
  [ "credential"; "custom_virtualenv"; "description"; "group_by";
    "instance_filters"; "name"; "overwrite"; "overwrite_vars"; "source";
    "source_path"; "source_project"; "source_regions"; "source_script";
    "source_vars"; "update_cache_timeout"; "update_on_launch";
    "update_on_project_update"; "verbosity" ].

(** The fields [resetSubFormFields] writes when the type picked is not the
    original one. *)
Definition reset_fields : list string :=
  [ "credential"; "group_by"; "instance_filters"; "overwrite";
    "overwrite_vars"; "source"; "source_path"; "source_project";
    "source_regions"; "source_script"; "source_vars";
    "update_cache_timeout"; "update_on_launch"; "update_on_project_update";
    "verbosity" ].

(** The fields that survive a return to the original type. *)
Definition kept_fields : list string :=
  [ "name"; "description"; "custom_virtualenv" ].

(** What the user does to the mounted form: an input bound to a field is
    edited, or a source type is picked in the source select. *)
Inductive form_event : Type :=
  | Edit (fieldName : string) (v : js_value)
  | SelectSource (sourceType : string).

Definition form_step (f : Formik.formik) (e : form_event) : Formik.formik :=
  match e with
  | Edit fieldName v => Formik.onChange (Formik.useField fieldName f) v f
  | SelectSource sourceType => source_onChange sourceType f
  end.

(** The form after a sequence of events, from mount. *)
Definition form_after (source : js_value) (es : list form_event)
  : Formik.formik :=
  foldl form_step (mount source) es.

(** An edit comes from an input of the form, each bound to a declared
    field. *)
Definition on_declared_field (e : form_event) : Prop :=
  match e with
  | Edit fieldName _ => fieldName ∈ declared_fields
  | SelectSource _ => True
  end.

(** The names an object literal answers to besides its own keys, the
    members of [Object.prototype]: a lookup of one of them in the sub-form
    literal does not give [undefined]. *)
Definition inherited_names : list string :=
  [ "constructor"; "hasOwnProperty"; "isPrototypeOf"; "propertyIsEnumerable";
    "toLocaleString"; "toString"; "valueOf"; "__proto__";
    "__defineGetter__"; "__defineSetter__"; "__lookupGetter__";
    "__lookupSetter__" ].


(** A pick in the source select, or a write to the source field. *)
Definition selects_or_edits_source (e : form_event) : Prop :=
  match e with
  | Edit fieldName _ => fieldName = "source"
  | SelectSource _ => True
  end.

(** An edit of the field [k]. *)
Definition edits_field (k : string) (e : form_event) : Prop :=
  match e with
  | Edit fieldName _ => fieldName = k
  | SelectSource _ => False
  end.

(** ** The options request *)

(** Modelled from the spec: the request hook [util/useRequest] is not among
    the sources.  The specification gives its life cycle as idle, then
    loading once the request is issued on mount, then one of error and
    ready; one request per mount, never re-issued, no retry. *)
Inductive request_phase : Type :=
  | Idle
  | Loading
  | Failed (err : js_value)
  | Ready (payload : source_options).

Inductive request_event : Type :=
  | Issue
  | Resolve (payload : source_options)
  | Reject (err : js_value).

Definition request_next (p : request_phase) (e : request_event)
  : request_phase :=
  match p, e with
  | Idle, Issue => Loading
  | Loading, Resolve payload => Ready payload
  | Loading, Reject err => Failed err
  | _, _ => p
  end.

(** Modelled from the spec: what the absent hook reports in each phase,
    through the three names the component destructures.  The result starts
    as the [null] the component passes in. *)
Definition useRequest (p : request_phase) : request_state :=
  match p with
  | Idle => {| isLoading := false; error := VNull; result := None |}
  | Loading => {| isLoading := true; error := VNull; result := None |}
  | Failed err => {| isLoading := false; error := err; result := None |}
  | Ready payload =>
      {| isLoading := false; error := VNull; result := Some payload |}
  end.

(** The phases a mount goes through under a sequence of events, the first
    being the phase it starts in. *)
Fixpoint phases (p : request_phase) (es : list request_event)
  : list request_phase :=
  p :: match es with
       | [] => []
       | e :: es' => phases (request_next p e) es'
       end.

Definition is_form (v : view) : bool :=
  match v with
  | FormikForm _ _ _ => true
  | _ => false
  end.

(** ** Validation and submission *)

Section Submission.

Variable i18n : string -> string.

(** The message [required] uses when it is given [null] for one. *)
Variable blank_message : string.

(** Modelled from the spec: [required] of [util/validators] is not among
    the sources.  The specification: a required field left empty is a
    validation error with a fixed message. *)
Definition required (message : option string) (v : js_value)
  : option string :=
  if strict_eq_str v "" then Some (default blank_message message) else None.

(** The validators the fields register: [required(null, i18n)] on name,
    [required(i18n._(t`Set a value for this field`), i18n)] on source. *)
Definition validators : list (string * (js_value -> option string)) :=
  [ ("name", required None);
    ("source", required (Some (i18n "Set a value for this field"))) ].

(** The errors of a values object, field by field. *)
Definition validate (vals : obj) : list (string * string) :=
  omap (fun '(fieldName, check) =>
          (fun msg => (fieldName, msg)) <$> check (get vals fieldName))
       validators.

(** Modelled from the spec: the form engine's submit, which the sources
    only call.  A field validation error blocks the submit; without one
    the [onSubmit] prop is called on the current values. *)
Definition handleSubmit {R : Type} (onSubmit : obj -> R) (f : Formik.formik)
  : option R :=
  match validate (Formik.values f) with
  | [] => Some (Formik_onSubmit onSubmit (Formik.values f))
  | _ :: _ => None
  end.

End Submission.

(** ** Sample data *)

(** An SCM source stored with a path below the project root. *)
Definition scm_source_with_path : js_value :=
  VObj (<["source" := VStr "scm"]>
          (<["source_path" := VStr "inventories/hosts"]>
             (<["verbosity" := VNum 2]> ∅))).

(** An EC2 source stored at verbosity 0 and with the empty path. *)
Definition quiet_ec2_source : js_value :=
  VObj (<["name" := VStr "aws"]>
          (<["source" := VStr "ec2"]>
             (<["source_path" := VStr ""]>
                (<["verbosity" := VNum 0]> ∅)))).

(** A form mounted on a stored EC2 source, with the name edited since. *)
Definition edited_ec2_form : Formik.formik :=
  Formik.setFieldValue "name" (VStr "aws west") (mount quiet_ec2_source).

(** The same form after the user moved to GCE and typed a region. *)
Definition moved_to_gce_form : Formik.formik :=
  Formik.setFieldValue "source_regions" (VStr "us-east1")
    (resetSubFormFields "gce" edited_ec2_form).


(** A failure as the API client reports one. *)
Definition network_error : js_value :=
  VObj (<["message" := VStr "Network Error"]> ∅).

(** A payload with a type the form has no sub-form for. *)
Definition options_with_new_type : source_options :=
  {| choices := [ (VStr "ec2", VStr "Amazon EC2");
                  (VStr "file", VStr "File");
                  (VStr "insights", VStr "Red Hat Insights") ] |}.

(** An inventory source imported from a file. *)
Definition file_source : js_value :=
  VObj (<["name" := VStr "imported"]> (<["source" := VStr "file"]> ∅)).

(** An entity carrying the number of its credential and no
    [summary_fields]. *)
Definition source_with_credential_id : js_value :=
  VObj (<["credential" := VNum 5]> (<["source" := VStr "ec2"]> ∅)).

(** * Properties *)

(** ** Values *)

Lemma get_insert_eq (o : obj) (k : string) (v : js_value) :
  get (<[k := v]> o) k = v.
Proof. unfold get. by rewrite lookup_insert_eq. Qed.

Lemma get_insert_ne (o : obj) (k k' : string) (v : js_value) :
  k ≠ k' → get (<[k := v]> o) k' = get o k'.
Proof. intros Hne. unfold get. by rewrite lookup_insert_ne. Qed.

Lemma get_lookup (o : obj) (k : string) (v : js_value) :
  o !! k = Some v → get o k = v.
Proof. intros Hk. unfold get. by rewrite Hk. Qed.

Lemma strict_eq_str_true (v : js_value) (s : string) :
  strict_eq_str v s = true ↔ v = VStr s.
Proof.
  destruct v; simpl; try (split; [discriminate | congruence]).
  rewrite bool_decide_eq_true. split; congruence.
Qed.

Lemma strict_eq_str_false (v : js_value) (s : string) :
  strict_eq_str v s = false ↔ v ≠ VStr s.
Proof.
  rewrite <- strict_eq_str_true.
  destruct (strict_eq_str v s); split; congruence.
Qed.

Lemma strict_ne_str_true (v : js_value) (s : string) :
  strict_ne_str v s = true ↔ v ≠ VStr s.
Proof.
  unfold strict_ne_str. rewrite negb_true_iff. apply strict_eq_str_false.
Qed.

Lemma js_or_falsy (a b : js_value) : truthy a = false → js_or a b = b.
Proof. intros Ha. unfold js_or. by rewrite Ha. Qed.

Lemma js_or_truthy (a b : js_value) : truthy a = true → js_or a b = a.
Proof. intros Ha. unfold js_or. by rewrite Ha. Qed.

(** ** The source choices *)

Lemma filter_keeps_all {A : Type} (P : A → Prop) `{!∀ x, Decision (P x)}
    (l : list A) :
  Forall P l → filter P l = l.
Proof.
  induction 1 as [| x l Hx _ IH]; [done |].
  rewrite filter_cons_True by done. by rewrite IH.
Qed.

Lemma buildSourceChoiceOptions_elem (options : source_options)
    (o : select_option) :
  o ∈ buildSourceChoiceOptions options ↔
  opt_key o ≠ VStr "file" ∧
  ∃ choice label,
    (choice, label) ∈ choices options ∧
    o = {| opt_label := label; opt_key := choice; opt_value := choice;
           isDisabled := false |}.
Proof.
  unfold buildSourceChoiceOptions.
  rewrite list_elem_of_filter, strict_ne_str_true, list_elem_of_fmap.
  split.
  - intros [Hkey [[choice label] [-> Hin]]]. eauto.
  - intros [Hkey [choice [label [Hin ->]]]]. split; [done |].
    by exists (choice, label).
Qed.

Section SourceChoices.

Variable i18n : string -> string.

(** C3. Whatever the options payload, no choice built from it has the
    code "file", as key or as value; every pair of the payload whose code
    is not "file" is among the choices, with its label; the enabled
    entries of the source select are these choices; and for the payload
    [["ec2","Amazon EC2"],["file","File"]] the select offers
    "Amazon EC2" alone. *)
Theorem source_choices_exclude_file (options : source_options)
    (custom_virtualenvs : option (list string)) (f : Formik.formik) :
  (∀ o, o ∈ buildSourceChoiceOptions options →
        opt_key o ≠ VStr "file" ∧ opt_value o ≠ VStr "file") ∧
  (∀ code label,
      (code, label) ∈ choices options → code ≠ VStr "file" →
      {| opt_label := label; opt_key := code; opt_value := code;
         isDisabled := false |} ∈ buildSourceChoiceOptions options) ∧
  filter (fun o => isDisabled o = false)
    (data (source_select
             (InventorySourceFormFields i18n options custom_virtualenvs f)))
  = buildSourceChoiceOptions options ∧
  filter (fun o => isDisabled o = false)
    (data (source_select
             (InventorySourceFormFields i18n
                {| choices := [ (VStr "ec2", VStr "Amazon EC2");
                                (VStr "file", VStr "File") ] |}
                custom_virtualenvs f)))
  = [ {| opt_label := VStr "Amazon EC2"; opt_key := VStr "ec2";
         opt_value := VStr "ec2"; isDisabled := false |} ].
Proof.
assert (Henabled : ∀ opts,
  filter (fun o => isDisabled o = false) (buildSourceChoiceOptions opts)
  = buildSourceChoiceOptions opts).
{ intros opts. apply filter_keeps_all, Forall_forall. intros o Ho.
  apply buildSourceChoiceOptions_elem in Ho
    as [_ [choice [label [_ ->]]]]. done. }
split; [| split; [| split]].
- intros o Ho. apply buildSourceChoiceOptions_elem in Ho
    as [Hkey [choice [label [_ ->]]]]. simpl in *. done.
- intros code label Hin Hcode. apply buildSourceChoiceOptions_elem.
  split; [done |]. eauto.
- simpl. rewrite filter_cons_False by (simpl; discriminate).
  apply Henabled.
- simpl. rewrite filter_cons_False by (simpl; discriminate).
  rewrite Henabled. reflexivity.
Qed.

End SourceChoices.

(** ** The initial values *)

(** Reads a field of an object literal written out as a chain of
    insertions. *)
Ltac read_literal :=
  cbn [list_to_map foldr fst snd];
  repeat (rewrite lookup_insert_ne by discriminate);
  first [ apply lookup_insert_eq | apply lookup_empty ].

Lemma initialValues_dom (source : js_value) :
  dom (initialValues source) = list_to_set declared_fields.
Proof. unfold initialValues. rewrite dom_list_to_map_L. reflexivity. Qed.

Lemma initialValues_source_path (source : js_value) :
  initialValues source !! "source_path" =
  Some (if strict_eq_str (opt_get source "source_path") ""
        then VStr "/ (project root)" else VStr "").
Proof. unfold initialValues. read_literal. Qed.

Lemma initialValues_verbosity (source : js_value) :
  initialValues source !! "verbosity" =
  Some (js_or (opt_get source "verbosity") (VNum 1)).
Proof. unfold initialValues. read_literal. Qed.

Lemma initialValues_source (source : js_value) :
  initialValues source !! "source" =
  Some (js_or (opt_get source "source") (VStr "")).
Proof. unfold initialValues. read_literal. Qed.

Example initial_source_path_of_stored_path :
  get (initialValues scm_source_with_path) "source_path" = VStr "".
Proof. vm_compute. reflexivity. Qed.

Example initial_source_path_of_empty_path :
  get (initialValues quiet_ec2_source) "source_path"
  = VStr "/ (project root)".
Proof. vm_compute. reflexivity. Qed.

Example initial_source_path_of_new_source :
  get (initialValues VUndefined) "source_path" = VStr "".
Proof. vm_compute. reflexivity. Qed.

Example initial_verbosity_of_two :
  get (initialValues scm_source_with_path) "verbosity" = VNum 2.
Proof. vm_compute. reflexivity. Qed.

(** C9. Whatever source entity is passed in, the initial [source_path] is
    '/ (project root)' when the entity's [source_path] is the empty string
    and the empty string in every other case; an entity's non-empty stored
    path is therefore not carried into the form. *)
Theorem initial_source_path (source : js_value) :
  (opt_get source "source_path" = VStr "" →
   initialValues source !! "source_path" = Some (VStr "/ (project root)")) ∧
  (opt_get source "source_path" ≠ VStr "" →
   initialValues source !! "source_path" = Some (VStr "")) ∧
  (∀ path, path ≠ "" →
     opt_get source "source_path" = VStr path →
     get (initialValues source) "source_path" ≠ opt_get source "source_path").
Proof.
  rewrite initialValues_source_path. split; [| split].
  - intros Hpath. by rewrite (proj2 (strict_eq_str_true _ _) Hpath).
  - intros Hpath. by rewrite (proj2 (strict_eq_str_false _ _) Hpath).
  - intros path Hne Hpath.
    erewrite get_lookup by apply initialValues_source_path.
    rewrite Hpath. simpl. rewrite bool_decide_eq_false_2 by done.
    congruence.
Qed.

(** C10. For a source entity whose verbosity is 0 the initial verbosity is
    1: the falsy 0 is replaced by the default, so the stored level is not
    the one the form starts with. *)
Theorem initial_verbosity_zero (source : js_value) :
  opt_get source "verbosity" = VNum 0 →
  initialValues source !! "verbosity" = Some (VNum 1) ∧
  get (initialValues source) "verbosity" ≠ opt_get source "verbosity".
Proof.
  intros Hzero.
  assert (Hone : initialValues source !! "verbosity" = Some (VNum 1)).
  { rewrite initialValues_verbosity, js_or_falsy; [done |].
    by rewrite Hzero. }
  split; [done |]. rewrite (get_lookup _ _ _ Hone), Hzero. discriminate.
Qed.

Lemma initial_verbosity_zero_witness :
  opt_get quiet_ec2_source "verbosity" = VNum 0 ∧
  initialValues quiet_ec2_source !! "verbosity" = Some (VNum 1).
Proof.
  assert (Hzero : opt_get quiet_ec2_source "verbosity" = VNum 0)
    by (vm_compute; reflexivity).
  split; [exact Hzero |].
  exact (proj1 (initial_verbosity_zero quiet_ec2_source Hzero)).
Defined.

(** ** The reset on a change of source type *)

Lemma get_is_str (o : obj) (k s : string) :
  get o k = VStr s → o !! k = Some (VStr s).
Proof. unfold get. destruct (o !! k); simpl; [congruence | discriminate]. Qed.

Lemma resetSubFormFields_other (f : Formik.formik) (sourceType : string) :
  get (Formik.initialValues f) "source" ≠ VStr sourceType →
  resetSubFormFields sourceType f =
  foldl (fun acc '(label, v) => Formik.setFieldValue label v acc)
        f (defaults sourceType).
Proof.
  intros Hne. unfold resetSubFormFields.
  by rewrite (proj2 (strict_eq_str_false _ _) Hne).
Qed.

Lemma resetSubFormFields_original (f : Formik.formik) (sourceType : string) :
  get (Formik.initialValues f) "source" = VStr sourceType →
  resetSubFormFields sourceType f =
  Formik.resetForm
    (<["source" := VStr sourceType]>
       (<["custom_virtualenv" := get (Formik.values f) "custom_virtualenv"]>
          (<["description" := get (Formik.values f) "description"]>
             (<["name" := get (Formik.values f) "name"]>
                (Formik.initialValues f)))))
    f.
Proof.
  intros Heq. unfold resetSubFormFields.
  by rewrite (proj2 (strict_eq_str_true _ _) Heq).
Qed.

(** Reads a field written by a chain of [setFieldValue]. *)
Ltac read_written :=
  repeat (rewrite lookup_insert_ne by discriminate);
  apply lookup_insert_eq.

(** C1. For every form state and every newly selected source type other
    than the original one, the reset writes the fourteen provider-neutral
    fields to their fixed defaults, sets [source] to the type selected, and
    changes no other field: name, description and custom_virtualenv are as
    they were, and so are the initial values. *)
Theorem reset_to_defaults_on_other_type
    (f : Formik.formik) (sourceType : string) :
  get (Formik.initialValues f) "source" ≠ VStr sourceType →
  let vals := Formik.values (resetSubFormFields sourceType f) in
  (vals !! "credential" = Some VNull ∧
   vals !! "group_by" = Some (VStr "") ∧
   vals !! "instance_filters" = Some (VStr "") ∧
   vals !! "overwrite" = Some (VBool false) ∧
   vals !! "overwrite_vars" = Some (VBool false) ∧
   vals !! "source_path" = Some (VStr "") ∧
   vals !! "source_project" = Some VNull ∧
   vals !! "source_regions" = Some (VStr "") ∧
   vals !! "source_script" = Some VNull ∧
   vals !! "source_vars"
   = Some (VStr ("---" ++ String (Ascii.ascii_of_nat 10) "")) ∧
   vals !! "update_cache_timeout" = Some (VNum 0) ∧
   vals !! "update_on_launch" = Some (VBool false) ∧
   vals !! "update_on_project_update" = Some (VBool false) ∧
   vals !! "verbosity" = Some (VNum 1)) ∧
  vals !! "source" = Some (VStr sourceType) ∧
  (vals !! "name" = Formik.values f !! "name" ∧
   vals !! "description" = Formik.values f !! "description" ∧
   vals !! "custom_virtualenv" = Formik.values f !! "custom_virtualenv") ∧
  (∀ k, k ∉ reset_fields → vals !! k = Formik.values f !! k) ∧
  Formik.initialValues (resetSubFormFields sourceType f)
  = Formik.initialValues f.
Proof.
  intros Hne vals. subst vals. rewrite (resetSubFormFields_other _ _ Hne).
  cbn [foldl defaults Formik.setFieldValue Formik.values
       Formik.initialValues].
  split; [| split; [| split; [| split]]].
  - repeat split; read_written.
  - read_written.
  - repeat split; by repeat (rewrite lookup_insert_ne by discriminate).
  - intros k Hk. unfold reset_fields in Hk.
    repeat (rewrite lookup_insert_ne
              by (intros <-; apply Hk, list_elem_of_In; simpl; tauto)).
    reflexivity.
  - reflexivity.
Qed.

Lemma reset_to_defaults_on_other_type_witness :
  Formik.values (resetSubFormFields "gce" edited_ec2_form) !! "source"
  = Some (VStr "gce") ∧
  Formik.values (resetSubFormFields "gce" edited_ec2_form) !! "name"
  = Some (VStr "aws west").
Proof.
  assert (Hne : get (Formik.initialValues edited_ec2_form) "source"
                ≠ VStr "gce") by (vm_compute; discriminate).
  pose proof (reset_to_defaults_on_other_type edited_ec2_form "gce" Hne)
    as (_ & Hsource & (Hname & _) & _).
  split; [exact Hsource |].
  etransitivity; [exact Hname | vm_compute; reflexivity].
Defined.

(** C2. For every form state, selecting the source type the form started
    with restores every field to its initial value, except name,
    description and custom_virtualenv, which keep the values they have. *)
Theorem restore_initial_on_original_type
    (f : Formik.formik) (sourceType : string) :
  get (Formik.initialValues f) "source" = VStr sourceType →
  let vals := Formik.values (resetSubFormFields sourceType f) in
  (∀ k, k ∉ kept_fields → vals !! k = Formik.initialValues f !! k) ∧
  vals !! "source" = Some (VStr sourceType) ∧
  get vals "name" = get (Formik.values f) "name" ∧
  get vals "description" = get (Formik.values f) "description" ∧
  get vals "custom_virtualenv" = get (Formik.values f) "custom_virtualenv".
Proof.
  intros Heq vals. subst vals. rewrite (resetSubFormFields_original _ _ Heq).
  cbn [Formik.resetForm Formik.values].
  split; [| split; [| repeat split]].
  - intros k Hk. unfold kept_fields in Hk.
    destruct (decide (k = "source")) as [-> | Hsource].
    + rewrite lookup_insert_eq. symmetry. by apply get_is_str.
    + rewrite lookup_insert_ne by done.
      repeat (rewrite lookup_insert_ne
                by (intros <-; apply Hk, list_elem_of_In; simpl; tauto)).
      reflexivity.
  - apply lookup_insert_eq.
  - rewrite !get_insert_ne by discriminate. apply get_insert_eq.
  - rewrite !get_insert_ne by discriminate. apply get_insert_eq.
  - rewrite !get_insert_ne by discriminate. apply get_insert_eq.
Qed.

Lemma restore_initial_on_original_type_witness :
  Formik.values (resetSubFormFields "ec2" moved_to_gce_form)
    !! "source_regions" = Some (VStr "") ∧
  get (Formik.values (resetSubFormFields "ec2" moved_to_gce_form)) "name"
  = VStr "aws west".
Proof.
  assert (Heq : get (Formik.initialValues moved_to_gce_form) "source"
                = VStr "ec2") by (vm_compute; reflexivity).
  pose proof (restore_initial_on_original_type moved_to_gce_form "ec2" Heq)
    as (Hrest & _ & Hname & _).
  split.
  - etransitivity; [apply (Hrest "source_regions") | vm_compute; reflexivity].
    intros Hin. repeat (apply elem_of_cons in Hin as [Hin | Hin];
                        [discriminate |]).
    by apply elem_of_nil in Hin.
  - etransitivity; [exact Hname | vm_compute; reflexivity].
Defined.

(** ** The original type over a session *)

(** Whatever the user does, the initial values the form engine holds keep
    the entity's value in every field but the three a return to the
    original type carries over; the source type the reset compares with is
    thus the entity's throughout. *)
Lemma form_step_initial (f : Formik.formik) (e : form_event) (k : string) :
  k ∉ kept_fields →
  Formik.initialValues (form_step f e) !! k = Formik.initialValues f !! k.
Proof.
  intros Hk. destruct e as [fieldName v | sourceType]; [reflexivity |].
  cbn [form_step]. unfold source_onChange, resetSubFormFields.
  destruct (strict_eq_str _ _) eqn:Hsame.
  - apply strict_eq_str_true in Hsame.
    cbn [Formik.resetForm Formik.initialValues].
    destruct (decide (k = "source")) as [-> | Hsource].
    + rewrite lookup_insert_eq. symmetry. by apply get_is_str.
    + rewrite lookup_insert_ne by done. unfold kept_fields in Hk.
      repeat (rewrite lookup_insert_ne
                by (intros <-; apply Hk, list_elem_of_In; simpl; tauto)).
      reflexivity.
  - reflexivity.
Qed.

Lemma form_after_initial (source : js_value) (es : list form_event)
    (k : string) :
  k ∉ kept_fields →
  Formik.initialValues (form_after source es) !! k
  = initialValues source !! k.
Proof.
  intros Hk. unfold form_after.
  induction es as [| e es IH] using rev_ind; [reflexivity |].
  rewrite foldl_app. cbn [foldl]. by rewrite form_step_initial.
Qed.

(** X8. After any session, picking the type the entity was stored with
    brings every field but the three kept ones back to the value the form
    was mounted with. *)
Corollary reselect_entity_type_after_session (source : js_value)
    (es : list form_event) (sourceType : string) (k : string) :
  get (initialValues source) "source" = VStr sourceType →
  k ∉ kept_fields →
  Formik.values (form_after source (es ++ [SelectSource sourceType])) !! k
  = initialValues source !! k.
Proof.
  intros Hsame Hk. unfold form_after. rewrite foldl_app. cbn [foldl form_step].
  fold (form_after source es). unfold source_onChange.
  assert (Hnow : get (Formik.initialValues (form_after source es)) "source"
                 = VStr sourceType).
  { unfold get. rewrite form_after_initial.
    - by rewrite (get_is_str _ _ _ Hsame).
    - unfold kept_fields. intros Hin.
      repeat (apply elem_of_cons in Hin as [Hin | Hin]; [discriminate |]).
      by apply elem_of_nil in Hin. }
  rewrite (resetSubFormFields_original _ _ Hnow).
  cbn [Formik.resetForm Formik.values].
  destruct (decide (k = "source")) as [-> | Hsource].
  - rewrite lookup_insert_eq. symmetry. by apply get_is_str.
  - rewrite lookup_insert_ne by done. unfold kept_fields in Hk.
    repeat (rewrite lookup_insert_ne
              by (intros <-; apply Hk, list_elem_of_In; simpl; tauto)).
    by apply form_after_initial.
Qed.

(** ** The values submitted *)



(** Membership of a literal name in [declared_fields]. *)
Ltac declared :=
  unfold declared_fields; apply list_elem_of_In; simpl; tauto.





(** The submit of the form: the engine's submit on the errors the fields'
    validators give. *)
Lemma handleSubmit_submitForm {R : Type} (i18n : string → string)
    (blank_message : string) (onSubmit : obj → R) (f : Formik.formik) :
  handleSubmit i18n blank_message onSubmit f
  = submitForm (validate i18n blank_message (Formik.values f)) onSubmit f.
Proof. reflexivity. Qed.

(** A write of [undefined], which no input of the form makes, removes the
    field from the values. *)
Example undefined_write_removes_the_field :
  Formik.values (form_after VUndefined [Edit "description" VUndefined])
    !! "description"
  = None.
Proof. vm_compute. reflexivity. Qed.

(** ** The sub-form shown *)

Section SubForms.

Variable i18n : string -> string.

(** C8. Whatever the form state, with the source field at the empty
    string neither the "Source details" heading nor a sub-form is
    rendered, and with the source field at one of the eleven codes the
    heading is rendered with, beneath it, the one sub-form that code
    keys. *)
Theorem sub_form_follows_source_type (sourceOptions : source_options)
    (custom_virtualenvs : option (list string)) (f : Formik.formik) :
  let block :=
    sub_form_block
      (InventorySourceFormFields i18n sourceOptions custom_virtualenvs f) in
  (get (Formik.values f) "source" = VStr "" → block = None) ∧
  (∀ code sub,
      (code, sub) ∈
        [ ("azure_rm", AzureSubForm sourceOptions);
          ("cloudforms", CloudFormsSubForm);
          ("custom", CustomScriptSubForm);
          ("ec2", EC2SubForm sourceOptions);
          ("gce", GCESubForm sourceOptions);
          ("openstack", OpenStackSubForm);
          ("rhv", VirtualizationSubForm);
          ("satellite6", SatelliteSubForm);
          ("scm", SCMSubForm);
          ("tower", TowerSubForm);
          ("vmware", VMwareSubForm sourceOptions) ] →
      get (Formik.values f) "source" = VStr code →
      block = Some {| title := i18n "Source details"; body := Some sub |}).
Proof.
  intros block. subst block.
  cbn [InventorySourceFormFields sub_form_block Formik.useField
       Formik.value].
  split.
  - intros ->. reflexivity.
  - intros code sub Hin ->.
    repeat (apply elem_of_cons in Hin as [[= -> ->] | Hin];
            [reflexivity |]).
    by apply elem_of_nil in Hin.
Qed.

End SubForms.

Example ec2_sub_form_after_selection :
  sub_form_block
    (InventorySourceFormFields (fun msg => msg)
       {| choices := [ (VStr "ec2", VStr "Amazon EC2");
                       (VStr "file", VStr "File") ] |}
       None (source_onChange "ec2" (mount VUndefined)))
  = Some {| title := "Source details";
            body := Some (EC2SubForm
                            {| choices := [ (VStr "ec2", VStr "Amazon EC2");
                                            (VStr "file", VStr "File") ] |}) |}.
Proof. vm_compute. reflexivity. Qed.

Example no_sub_form_on_new_source :
  sub_form_block
    (InventorySourceFormFields (fun msg => msg) {| choices := [] |}
       None (mount VUndefined))
  = None.
Proof. vm_compute. reflexivity. Qed.

(** ** The environment selector *)

Section Environments.

Variable i18n : string -> string.

(** C7. The environment selector is rendered exactly when the configured
    environment list has more than one entry, so not for a missing, an
    empty or a one-entry list.  When rendered, its options are the
    default-environment option, of value '/venv/ansible/', followed by one
    option for every configured path other than that default path, in
    order, with the path as value, label and key; and it is bound to the
    field custom_virtualenv, whose value it shows and to which the choice
    of an option writes that option's value. *)
Theorem environment_selector (sourceOptions : source_options)
    (custom_virtualenvs : option (list string)) (f : Formik.formik) :
  let group :=
    venv_group
      (InventorySourceFormFields i18n sourceOptions custom_virtualenvs f) in
  (is_Some group ↔
   ∃ venvs, custom_virtualenvs = Some venvs ∧ 1 < length venvs) ∧
  (custom_virtualenvs = None → group = None) ∧
  (custom_virtualenvs = Some [] → group = None) ∧
  (∀ venv, custom_virtualenvs = Some [venv] → group = None) ∧
  (∀ select, group = Some select →
     ∃ venvs,
       custom_virtualenvs = Some venvs ∧
       data select =
         {| opt_label := VStr (i18n "Use Default Ansible Environment");
            opt_value := VStr "/venv/ansible/";
            opt_key := VStr "default";
            isDisabled := false |}
         :: map (fun venv =>
                   {| opt_value := VStr venv; opt_label := VStr venv;
                      opt_key := VStr venv; isDisabled := false |})
              (filter (fun venv => venv ≠ "/venv/ansible/") venvs) ∧
       (∀ venv,
           {| opt_value := VStr venv; opt_label := VStr venv;
              opt_key := VStr venv; isDisabled := false |}
           ∈ tail (data select) ↔
           venv ∈ venvs ∧ venv ≠ "/venv/ansible/") ∧
       Formik.name (bound select) = "custom_virtualenv" ∧
       Formik.value (bound select)
       = get (Formik.values f) "custom_virtualenv" ∧
       (∀ o, o ∈ data select →
             Formik.values (Formik.onChange (bound select) (opt_value o) f)
             = <["custom_virtualenv" := opt_value o]> (Formik.values f))).
Proof.
  intros group. subst group.
  cbn [InventorySourceFormFields venv_group].
  destruct custom_virtualenvs as [venvs |].
  2: { split; [| by repeat split].
       split; [by intros [? ?] | by intros (? & ? & _)]. }
  destruct (Nat.ltb_spec 1 (length venvs)) as [Hlen | Hlen].
  - split; [| split; [| split; [| split]]].
    + split; [intros _; by exists venvs | done].
    + done.
    + intros [= ->]. simpl in Hlen. lia.
    + intros venv [= ->]. simpl in Hlen. lia.
    + intros select [= <-]. exists venvs. cbn [data bound tail].
      assert (Hfilter :
        filter (fun v => strict_ne_str (VStr v) "/venv/ansible/" = true)
               venvs
        = filter (fun venv => venv ≠ "/venv/ansible/") venvs).
      { apply list_filter_iff. intros v. rewrite strict_ne_str_true.
        split; congruence. }
      rewrite Hfilter. do 2 (split; [reflexivity |]).
      split; [| split; [reflexivity | split; [reflexivity |]]].
      * intros venv. rewrite list_elem_of_fmap. split.
        -- intros [v [Heq Hv]]. apply list_elem_of_filter in Hv.
           injection Heq as ->. tauto.
        -- intros [Hin Hne]. exists venv.
           split; [done |]. by apply list_elem_of_filter.
      * intros o Ho. apply elem_of_cons in Ho as [-> | Ho]; [done |].
        apply list_elem_of_fmap in Ho as [venv [-> _]]. done.
  - split; [| split; [| split; [| split]]]; try done.
    split; [by intros [? ?] |].
    intros (venvs' & [= <-] & Hlen'). lia.
Qed.

End Environments.

Example environment_selector_with_two_paths :
  option_map data
    (venv_group
       (InventorySourceFormFields (fun msg => msg) {| choices := [] |}
          (Some [ "/venv/ansible/"; "/venv/custom/" ]) (mount VUndefined)))
  = Some [ {| opt_label := VStr "Use Default Ansible Environment";
              opt_value := VStr "/venv/ansible/";
              opt_key := VStr "default";
              isDisabled := false |};
           {| opt_label := VStr "/venv/custom/";
              opt_value := VStr "/venv/custom/";
              opt_key := VStr "/venv/custom/";
              isDisabled := false |} ].
Proof. vm_compute. reflexivity. Qed.

Example environment_selector_with_one_path :
  venv_group
    (InventorySourceFormFields (fun msg => msg) {| choices := [] |}
       (Some [ "/venv/ansible/" ]) (mount VUndefined))
  = None.
Proof. vm_compute. reflexivity. Qed.

(** ** The options request *)

Lemma phases_head (p : request_phase) (es : list request_event) :
  p ∈ phases p es.
Proof. destruct es; apply list_elem_of_here. Qed.

Lemma failed_stays (err : js_value) (e : request_event) :
  request_next (Failed err) e = Failed err.
Proof. by destruct e. Qed.

Lemma ready_stays (payload : source_options) (e : request_event) :
  request_next (Ready payload) e = Ready payload.
Proof. by destruct e. Qed.

(** A run that passes through the error phase never passes through the
    ready phase, and ends in the error phase. *)
Lemma failed_run (err : js_value) (es : list request_event) :
  ∀ p, Failed err ∈ phases p es →
       (∀ q, q ∈ phases p es → ∀ payload, q ≠ Ready payload) ∧
       foldl request_next p es = Failed err.
Proof.
  induction es as [| e es IH]; intros p Hin; cbn [phases foldl] in *.
  - apply list_elem_of_singleton in Hin as <-. split; [| done].
    intros q Hq payload. by apply list_elem_of_singleton in Hq as ->.
  - assert (Hnext : Failed err ∈ phases (request_next p e) es).
    { apply elem_of_cons in Hin as [<- | Hin]; [| done].
      rewrite failed_stays. apply phases_head. }
    destruct (IH _ Hnext) as [Hnever Hlast]. split; [| done].
    intros q Hq payload. apply elem_of_cons in Hq as [-> | Hq].
    + intros ->. rewrite ready_stays in Hnever.
      by apply (Hnever (Ready payload) (phases_head _ _) payload).
    + by apply Hnever.
Qed.

Lemma no_form_before_ready (source submitError : js_value)
    (p : request_phase) :
  (∀ payload, p ≠ Ready payload) →
  is_form (InventorySourceForm source submitError (useRequest p)) = false.
Proof.
  intros Hp. destruct p as [| | err | payload]; try done.
  - unfold InventorySourceForm. simpl. by destruct (truthy err).
  - by destruct (Hp payload).
Qed.

(** C4. When the options fetch rejects with a failure, the component
    renders the error indicator carrying that failure; over the whole
    mount, from idle on, the form is never rendered; and the error phase
    is final: no event leaves it, so nothing is retried. *)
Theorem rejected_fetch_shows_error (source submitError err : js_value)
    (es : list request_event) :
  truthy err = true →
  Failed err ∈ phases Idle es →
  InventorySourceForm source submitError (useRequest (Failed err))
  = ContentError err ∧
  (∀ p, p ∈ phases Idle es →
        is_form (InventorySourceForm source submitError (useRequest p))
        = false) ∧
  foldl request_next Idle es = Failed err ∧
  (∀ e, request_next (Failed err) e = Failed err).
Proof.
  intros Herr Hin. destruct (failed_run err es Idle Hin) as [Hnever Hlast].
  split; [| split; [| split]].
  - unfold InventorySourceForm. simpl. by rewrite Herr.
  - intros p Hp. apply no_form_before_ready. by apply Hnever.
  - exact Hlast.
  - apply failed_stays.
Qed.

Lemma rejected_fetch_shows_error_witness :
  truthy network_error = true ∧
  Failed network_error ∈ phases Idle [Issue; Reject network_error; Issue] ∧
  InventorySourceForm quiet_ec2_source VNull
    (useRequest
       (foldl request_next Idle [Issue; Reject network_error; Issue]))
  = ContentError network_error.
Proof.
  assert (Herr : truthy network_error = true) by reflexivity.
  assert (Hin : Failed network_error
                ∈ phases Idle [Issue; Reject network_error; Issue]).
  { cbn [phases request_next]. do 2 apply list_elem_of_further.
    apply list_elem_of_here. }
  pose proof (rejected_fetch_shows_error quiet_ec2_source VNull
                network_error _ Herr Hin) as (Hview & _ & Hlast & _).
  split; [exact Herr |]. split; [exact Hin |].
  rewrite Hlast. exact Hview.
Defined.

(** The error branch tests the truthiness of the error: a rejection that
    carried [null] would leave the loading indicator. *)
Example rejection_without_a_failure :
  InventorySourceForm VUndefined VNull (useRequest (Failed VNull))
  = ContentLoading.
Proof. reflexivity. Qed.

Example resolved_fetch_shows_form :
  is_form
    (InventorySourceForm VUndefined VNull
       (useRequest
          (foldl request_next Idle [Issue; Resolve {| choices := [] |}])))
  = true.
Proof. reflexivity. Qed.

(** ** Validation on submit *)

Section SubmitValidation.

Variable i18n : string -> string.
Variable blank_message : string.

(** C6. With the source field empty, the required validator of the
    source field yields its fixed message, the message is among the
    form's validation errors, and the submit is blocked: [onSubmit] is
    not called. *)
Theorem empty_source_blocks_submit {R : Type} (onSubmit : obj → R)
    (f : Formik.formik) :
  get (Formik.values f) "source" = VStr "" →
  required blank_message (Some (i18n "Set a value for this field"))
    (get (Formik.values f) "source")
  = Some (i18n "Set a value for this field") ∧
  ("source", i18n "Set a value for this field")
  ∈ validate i18n blank_message (Formik.values f) ∧
  handleSubmit i18n blank_message onSubmit f = None.
Proof.
  intros Hempty.
  assert (Hvalidate :
    validate i18n blank_message (Formik.values f)
    = (match required blank_message None (get (Formik.values f) "name")
       with
       | Some msg => [("name", msg)]
       | None => []
       end ++ [("source", i18n "Set a value for this field")])%list).
  { unfold validate, validators. cbn [omap list_omap]. rewrite Hempty.
    by destruct (required blank_message None _). }
  unfold handleSubmit. rewrite Hvalidate, Hempty.
  split; [reflexivity |]. split.
  - apply elem_of_app. right. apply list_elem_of_here.
  - by destruct (required blank_message None _).
Qed.

(** With a name and a source type set the submit goes through, on the
    current values. *)
Lemma filled_form_submits {R : Type} (onSubmit : obj → R)
    (f : Formik.formik) :
  get (Formik.values f) "name" ≠ VStr "" →
  get (Formik.values f) "source" ≠ VStr "" →
  handleSubmit i18n blank_message onSubmit f
  = Some (onSubmit (Formik.values f)).
Proof.
  intros Hname Hsource. unfold handleSubmit, validate, validators, required.
  cbn [omap list_omap].
  rewrite (proj2 (strict_eq_str_false _ _) Hname).
  by rewrite (proj2 (strict_eq_str_false _ _) Hsource).
Qed.

End SubmitValidation.

Lemma empty_source_blocks_submit_witness :
  get (Formik.values (mount VUndefined)) "source" = VStr "" ∧
  handleSubmit (fun msg => msg) "This field must not be blank"
    (fun vals : obj => vals) (mount VUndefined)
  = None.
Proof.
  assert (Hempty : get (Formik.values (mount VUndefined)) "source" = VStr "")
    by (vm_compute; reflexivity).
  split; [exact Hempty |].
  exact (proj2 (proj2 (empty_source_blocks_submit (fun msg => msg)
                         "This field must not be blank"
                         (fun vals : obj => vals) (mount VUndefined)
                         Hempty))).
Defined.

(** * Further properties *)

(** ** Writes in sequence *)

Lemma setFieldValue_all_initial (l : list (string * js_value))
    (f : Formik.formik) :
  Formik.initialValues
    (foldl (fun acc '(label, v) => Formik.setFieldValue label v acc) f l)
  = Formik.initialValues f.
Proof.
  revert f. induction l as [| [k v] l IH]; intros f; [done |].
  cbn [foldl]. by rewrite IH.
Qed.

Lemma setFieldValue_defined (label : string) (v : js_value)
    (f : Formik.formik) :
  v ≠ VUndefined →
  Formik.values (Formik.setFieldValue label v f)
  = <[label := v]> (Formik.values f).
Proof. intros Hv. by destruct v. Qed.

Lemma setFieldValue_all_values (l : list (string * js_value))
    (f : Formik.formik) :
  NoDup l.*1 →
  Forall (fun write => write.2 ≠ VUndefined) l →
  Formik.values
    (foldl (fun acc '(label, v) => Formik.setFieldValue label v acc) f l)
  = list_to_map l ∪ Formik.values f.
Proof.
  revert f. induction l as [| [k v] l IH]; intros f Hnodup Hdefined.
  - cbn. by rewrite (left_id_L ∅ (∪)).
  - apply NoDup_cons in Hnodup as [Hk Hnodup].
    apply Forall_cons in Hdefined as [Hv Hdefined].
    cbn [foldl]. rewrite IH by done.
    rewrite setFieldValue_defined by done.
    cbn [list_to_map foldr fst snd].
    rewrite <- insert_union_r by by apply not_elem_of_list_to_map_1.
    by rewrite insert_union_l.
Qed.

Lemma defaults_keys (sourceType : string) :
  (defaults sourceType).*1 = reset_fields.
Proof. reflexivity. Qed.

Lemma reset_fields_NoDup : NoDup reset_fields.
Proof.
  apply (bool_decide_unpack (NoDup reset_fields)). vm_compute. exact I.
Qed.

Lemma resetSubFormFields_other_values (f : Formik.formik)
    (sourceType : string) :
  get (Formik.initialValues f) "source" ≠ VStr sourceType →
  Formik.values (resetSubFormFields sourceType f)
  = list_to_map (defaults sourceType) ∪ Formik.values f.
Proof.
  intros Hne. rewrite (resetSubFormFields_other _ _ Hne).
  apply setFieldValue_all_values.
  - rewrite defaults_keys. apply reset_fields_NoDup.
  - unfold defaults. repeat constructor; discriminate.
Qed.

Lemma resetSubFormFields_other_initial (f : Formik.formik)
    (sourceType : string) :
  get (Formik.initialValues f) "source" ≠ VStr sourceType →
  Formik.initialValues (resetSubFormFields sourceType f)
  = Formik.initialValues f.
Proof.
  intros Hne. rewrite (resetSubFormFields_other _ _ Hne).
  apply setFieldValue_all_initial.
Qed.

Lemma defaults_lookup_None (sourceType k : string) :
  (list_to_map (defaults sourceType) : obj) !! k = None ↔ k ∉ reset_fields.
Proof.
  rewrite <- (defaults_keys sourceType). symmetry.
  apply not_elem_of_list_to_map.
Qed.

Lemma defaults_source (sourceType : string) :
  (list_to_map (defaults sourceType) : obj) !! "source"
  = Some (VStr sourceType).
Proof. unfold defaults. read_literal. Qed.

(** ** Selection, whatever the branch *)

(** Membership of a literal name in a literal list of names is refuted. *)
Ltac not_listed Hin :=
  repeat (apply elem_of_cons in Hin as [Hin | Hin]; [discriminate |]);
  by apply elem_of_nil in Hin.

Lemma kept_not_reset (k : string) : k ∈ kept_fields → k ∉ reset_fields.
Proof.
  unfold kept_fields. intros Hk Hin.
  repeat (apply elem_of_cons in Hk as [-> | Hk]; [not_listed Hin |]).
  by apply elem_of_nil in Hk.
Qed.

Lemma resetSubFormFields_source (f : Formik.formik) (sourceType : string) :
  Formik.values (resetSubFormFields sourceType f) !! "source"
  = Some (VStr sourceType).
Proof.
  destruct (decide (strict_eq_str (get (Formik.initialValues f) "source")
                      sourceType = true)) as [Hsame | Hother].
  - apply strict_eq_str_true in Hsame.
    rewrite (resetSubFormFields_original _ _ Hsame).
    apply lookup_insert_eq.
  - apply not_true_is_false, strict_eq_str_false in Hother.
    rewrite (resetSubFormFields_other_values _ _ Hother).
    apply lookup_union_Some_l, defaults_source.
Qed.

Lemma resetSubFormFields_kept (f : Formik.formik) (sourceType k : string) :
  k ∈ kept_fields →
  get (Formik.values (resetSubFormFields sourceType f)) k
  = get (Formik.values f) k.
Proof.
  intros Hk.
  destruct (decide (strict_eq_str (get (Formik.initialValues f) "source")
                      sourceType = true)) as [Hsame | Hother].
  - apply strict_eq_str_true in Hsame.
    rewrite (resetSubFormFields_original _ _ Hsame).
    cbn [Formik.resetForm Formik.values]. unfold kept_fields in Hk.
    repeat (apply elem_of_cons in Hk as [-> | Hk];
            [rewrite ?get_insert_ne by discriminate; apply get_insert_eq |]).
    by apply elem_of_nil in Hk.
  - apply not_true_is_false, strict_eq_str_false in Hother.
    rewrite (resetSubFormFields_other_values _ _ Hother). unfold get.
    rewrite lookup_union_r; [done |].
    by apply defaults_lookup_None, kept_not_reset.
Qed.

Lemma sub_forms_no_empty_code (sourceOptions : source_options) :
  sub_forms sourceOptions !! "" = None.
Proof. unfold sub_forms. read_literal. Qed.

Section Selection.

Variable i18n : string -> string.

(** X3. Whatever type is picked in the source select and whatever the form
    state, afterwards the source field holds the type picked, the fields
    name, description and custom_virtualenv read as before, and the sub-form
    block is absent exactly when the type picked is the empty string. *)
Theorem selection_sets_source (sourceOptions : source_options)
    (custom_virtualenvs : option (list string)) (f : Formik.formik)
    (sourceType : string) :
  Formik.values (source_onChange sourceType f) !! "source"
  = Some (VStr sourceType) ∧
  (∀ k, k ∈ kept_fields →
        get (Formik.values (source_onChange sourceType f)) k
        = get (Formik.values f) k) ∧
  (sub_form_block
     (InventorySourceFormFields i18n sourceOptions custom_virtualenvs
        (source_onChange sourceType f)) = None
   ↔ sourceType = "").
Proof.
  unfold source_onChange. split; [apply resetSubFormFields_source |].
  split; [intros k Hk; by apply resetSubFormFields_kept |].
  cbn [InventorySourceFormFields sub_form_block Formik.useField Formik.value].
  rewrite (get_lookup _ _ _ (resetSubFormFields_source f sourceType)).
  unfold strict_ne_str, strict_eq_str.
  destruct (decide (sourceType = "")) as [-> | Hne].
  - by rewrite bool_decide_eq_true_2.
  - rewrite bool_decide_eq_false_2 by done. cbn. split; [discriminate | done].
Qed.

(** X4. Picking a type that keys a sub-form renders the "Source details"
    heading with that sub-form beneath it, whatever the form state was. *)
Theorem selected_type_shows_its_sub_form (sourceOptions : source_options)
    (custom_virtualenvs : option (list string)) (f : Formik.formik)
    (sourceType : string) (sub : sub_form) :
  sub_forms sourceOptions !! sourceType = Some sub →
  sub_form_block
    (InventorySourceFormFields i18n sourceOptions custom_virtualenvs
       (source_onChange sourceType f))
  = Some {| title := i18n "Source details"; body := Some sub |}.
Proof.
  intros Hsub. unfold source_onChange.
  cbn [InventorySourceFormFields sub_form_block Formik.useField Formik.value].
  rewrite (get_lookup _ _ _ (resetSubFormFields_source f sourceType)).
  assert (Hne : sourceType ≠ "").
  { intros ->. by rewrite sub_forms_no_empty_code in Hsub. }
  unfold strict_ne_str, strict_eq_str.
  rewrite bool_decide_eq_false_2 by done. cbn [negb lookup_sub_form].
  by rewrite Hsub.
Qed.

(** X5. A type of the payload other than "file" is offered by the source
    select even when no sub-form is keyed by it; picking such a type, if it
    is neither the empty string nor a name every object answers to, renders
    the "Source details" heading with nothing beneath it. *)
Theorem offered_type_without_sub_form (sourceOptions : source_options)
    (custom_virtualenvs : option (list string)) (f : Formik.formik)
    (sourceType : string) (label : js_value) :
  (VStr sourceType, label) ∈ choices sourceOptions →
  sourceType ≠ "file" →
  sourceType ≠ "" →
  sourceType ∉ inherited_names →
  sub_forms sourceOptions !! sourceType = None →
  {| opt_label := label; opt_key := VStr sourceType;
     opt_value := VStr sourceType; isDisabled := false |}
  ∈ data (source_select
            (InventorySourceFormFields i18n sourceOptions custom_virtualenvs
               f)) ∧
  sub_form_block
    (InventorySourceFormFields i18n sourceOptions custom_virtualenvs
       (source_onChange sourceType f))
  = Some {| title := i18n "Source details"; body := None |}.
Proof.
  intros Hin Hfile Hempty _ Hsub. split.
  - cbn [InventorySourceFormFields source_select data].
    apply list_elem_of_further, buildSourceChoiceOptions_elem.
    split; [cbn; congruence | eauto].
  - unfold source_onChange.
    cbn [InventorySourceFormFields sub_form_block Formik.useField
         Formik.value].
    rewrite (get_lookup _ _ _ (resetSubFormFields_source f sourceType)).
    unfold strict_ne_str, strict_eq_str.
    rewrite bool_decide_eq_false_2 by done. cbn [negb lookup_sub_form].
    by rewrite Hsub.
Qed.

End Selection.

(** ** Selections in sequence *)

Lemma insert_get_id (m : obj) (k : string) :
  is_Some (m !! k) → <[k := get m k]> m = m.
Proof. intros [v Hv]. apply insert_id. by rewrite (get_lookup _ _ _ Hv). Qed.

(** The values [resetSubFormFields] hands to [resetForm]. *)
Lemma restored_values_fixed (iv vals : obj) (sourceType : string) :
  let next :=
    <["source" := VStr sourceType]>
      (<["custom_virtualenv" := get vals "custom_virtualenv"]>
         (<["description" := get vals "description"]>
            (<["name" := get vals "name"]> iv))) in
  <["source" := VStr sourceType]>
    (<["custom_virtualenv" := get next "custom_virtualenv"]>
       (<["description" := get next "description"]>
          (<["name" := get next "name"]> next)))
  = next.
Proof.
  intros next.
  assert (Hname : next !! "name" = Some (get vals "name"))
    by (subst next; read_written).
  assert (Hdescription : next !! "description" = Some (get vals "description"))
    by (subst next; read_written).
  assert (Hvenv :
    next !! "custom_virtualenv" = Some (get vals "custom_virtualenv"))
    by (subst next; read_written).
  assert (Hsource : next !! "source" = Some (VStr sourceType))
    by (subst next; read_written).
  clearbody next.
  rewrite (insert_get_id next "name") by by rewrite Hname.
  rewrite (insert_get_id next "description") by by rewrite Hdescription.
  rewrite (insert_get_id next "custom_virtualenv") by by rewrite Hvenv.
  by apply insert_id.
Qed.

Lemma formik_eq (f g : Formik.formik) :
  Formik.values f = Formik.values g →
  Formik.initialValues f = Formik.initialValues g →
  f = g.
Proof. destruct f, g. cbn. by intros -> ->. Qed.

(** X6. Picking the same type twice in a row leaves the form as picking it
    once does. *)
Theorem selection_idempotent (f : Formik.formik) (sourceType : string) :
  resetSubFormFields sourceType (resetSubFormFields sourceType f)
  = resetSubFormFields sourceType f.
Proof.
  destruct (decide (strict_eq_str (get (Formik.initialValues f) "source")
                      sourceType = true)) as [Hsame | Hother].
  - apply strict_eq_str_true in Hsame.
    rewrite (resetSubFormFields_original f _ Hsame).
    rewrite resetSubFormFields_original
      by (cbn [Formik.resetForm Formik.initialValues]; apply get_insert_eq).
    cbn [Formik.resetForm Formik.values Formik.initialValues].
    unfold Formik.resetForm.
    by rewrite (restored_values_fixed (Formik.initialValues f)
                  (Formik.values f) sourceType).
  - apply not_true_is_false, strict_eq_str_false in Hother.
    assert (Hagain :
      get (Formik.initialValues (resetSubFormFields sourceType f)) "source"
      ≠ VStr sourceType)
      by by rewrite resetSubFormFields_other_initial.
    apply formik_eq.
    + rewrite (resetSubFormFields_other_values _ _ Hagain).
      rewrite (resetSubFormFields_other_values _ _ Hother).
      by rewrite (assoc_L (∪)), (idemp_L (∪)).
    + by rewrite !resetSubFormFields_other_initial.
Qed.

(** X7. After a move to a type other than the original one, the next
    selection gives the form it would have given without that move: among
    selections the last one decides, and a move away followed by the return
    to the original type is the return alone. *)
Theorem last_selection_decides (f : Formik.formik)
    (sourceType nextType : string) :
  get (Formik.initialValues f) "source" ≠ VStr sourceType →
  resetSubFormFields nextType (resetSubFormFields sourceType f)
  = resetSubFormFields nextType f.
Proof.
  intros Hother.
  pose proof (resetSubFormFields_other_initial _ _ Hother) as Hinit.
  pose proof (resetSubFormFields_other_values _ _ Hother) as Hvals.
  destruct (decide (strict_eq_str (get (Formik.initialValues f) "source")
                      nextType = true)) as [Hback | Hon].
  - apply strict_eq_str_true in Hback.
    rewrite (resetSubFormFields_original f _ Hback).
    rewrite resetSubFormFields_original by by rewrite Hinit.
    rewrite Hinit. unfold Formik.resetForm.
    rewrite !(resetSubFormFields_kept f sourceType)
      by (unfold kept_fields; apply list_elem_of_In; simpl; tauto).
    reflexivity.
  - apply not_true_is_false, strict_eq_str_false in Hon.
    apply formik_eq.
    + rewrite resetSubFormFields_other_values by by rewrite Hinit.
      rewrite (resetSubFormFields_other_values f _ Hon), Hvals.
      apply map_eq. intros k. rewrite !lookup_union.
      destruct (decide (k ∈ reset_fields)) as [Hk | Hk].
      * assert (is_Some ((list_to_map (defaults nextType) : obj) !! k))
          as [v Hv].
        { apply not_eq_None_Some. rewrite defaults_lookup_None. tauto. }
        rewrite Hv. by rewrite !union_Some_l.
      * by rewrite (proj2 (defaults_lookup_None sourceType k) Hk),
          (left_id_L None union).
    + rewrite resetSubFormFields_other_initial by by rewrite Hinit.
      by rewrite Hinit, resetSubFormFields_other_initial.
Qed.

(** ** Edits over a session *)

(** A write reads back, also the write of [undefined], which removes the
    key; and it leaves every other key as it was. *)
Lemma setFieldValue_get_eq (label : string) (v : js_value)
    (f : Formik.formik) :
  get (Formik.values (Formik.setFieldValue label v f)) label = v.
Proof.
  unfold get. destruct v; cbn; rewrite ?lookup_insert_eq; try done.
  by rewrite lookup_delete_eq.
Qed.

Lemma setFieldValue_lookup_ne (label k : string) (v : js_value)
    (f : Formik.formik) :
  label ≠ k →
  Formik.values (Formik.setFieldValue label v f) !! k = Formik.values f !! k.
Proof.
  intros Hne. destruct v; cbn; rewrite ?lookup_insert_ne by done; try done.
  by rewrite lookup_delete_ne.
Qed.

Lemma form_step_kept (f : Formik.formik) (e : form_event) (k : string) :
  k ∈ kept_fields →
  ¬ edits_field k e →
  get (Formik.values (form_step f e)) k = get (Formik.values f) k.
Proof.
  intros Hk He. destruct e as [fieldName v | sourceType].
  - change (form_step f (Edit fieldName v))
      with (Formik.setFieldValue fieldName v f).
    unfold get. by rewrite setFieldValue_lookup_ne.
  - cbn [form_step]. unfold source_onChange.
    by apply resetSubFormFields_kept.
Qed.

Lemma foldl_form_step_kept (f : Formik.formik) (es : list form_event)
    (k : string) :
  k ∈ kept_fields →
  Forall (fun e => ¬ edits_field k e) es →
  get (Formik.values (foldl form_step f es)) k = get (Formik.values f) k.
Proof.
  intros Hk. revert f. induction es as [| e es IH]; intros f Hes; [done |].
  apply Forall_cons in Hes as [He Hes]. cbn [foldl].
  rewrite IH by done. by apply form_step_kept.
Qed.

(** X9. What the user typed last into name, description or
    custom_virtualenv is what the form holds there at the end of the
    session, whatever source types were picked and whatever other declared
    fields were edited afterwards; without such an edit the field keeps the
    value the form was mounted with. *)
Theorem kept_field_edit_survives (source : js_value) (k : string)
    (v : js_value) (before after : list form_event) :
  k ∈ kept_fields →
  Forall on_declared_field after →
  Forall (fun e => ¬ edits_field k e) after →
  get (Formik.values (form_after source (before ++ Edit k v :: after))) k = v ∧
  get (Formik.values (form_after source after)) k
  = get (initialValues source) k.
Proof.
  intros Hk _ Hafter. unfold form_after. split.
  - rewrite foldl_app. cbn [foldl]. rewrite foldl_form_step_kept by done.
    apply (setFieldValue_get_eq k v).
  - by rewrite foldl_form_step_kept.
Qed.

(** ** Stored values in the initial values *)

(** The fields read straight off the entity, each with the default that
    stands in for a falsy stored value. *)
Lemma initialValues_direct (source : js_value) (k : string) (d : js_value) :
  (k, d) ∈ [ ("custom_virtualenv", VStr ""); ("description", VStr "");
             ("group_by", VStr ""); ("instance_filters", VStr "");
             ("name", VStr ""); ("overwrite", VBool false);
             ("overwrite_vars", VBool false); ("source", VStr "");
             ("source_regions", VStr ""); ("source_vars", VStr yaml_start);
             ("update_cache_timeout", VNum 0);
             ("update_on_launch", VBool false);
             ("update_on_project_update", VBool false);
             ("verbosity", VNum 1) ] →
  initialValues source !! k = Some (js_or (opt_get source k) d).
Proof.
  intros Hin. unfold initialValues.
  repeat (apply elem_of_cons in Hin as [[= -> ->] | Hin]; [read_literal |]).
  by apply elem_of_nil in Hin.
Qed.

(** The fields read off the entity's [summary_fields]. *)
Lemma initialValues_summary (source : js_value) (k : string) :
  k ∈ [ "credential"; "source_project"; "source_script" ] →
  initialValues source !! k
  = Some (js_or (opt_get (opt_get source "summary_fields") k) VNull).
Proof.
  intros Hin. unfold initialValues.
  repeat (apply elem_of_cons in Hin as [-> | Hin]; [read_literal |]).
  by apply elem_of_nil in Hin.
Qed.

Lemma js_or_same_default (v d : js_value) :
  (truthy v = false → v = d) → js_or v d = v.
Proof.
  unfold js_or. destruct (truthy v); [done |]. intros Hd. by rewrite Hd.
Qed.

(** X10. A stored value of a field's own kind reaches the form unchanged:
    any stored string for the seven text fields, the empty one included;
    any stored boolean for the four flags; any stored cache timeout; any
    stored verbosity other than 0; any stored non-empty variables blob.
    An empty variables blob becomes the three dashes and a line feed. *)
Theorem stored_values_reach_form (source : js_value) :
  (∀ k s,
      k ∈ [ "custom_virtualenv"; "description"; "group_by";
            "instance_filters"; "name"; "source"; "source_regions" ] →
      opt_get source k = VStr s →
      initialValues source !! k = Some (VStr s)) ∧
  (∀ k b,
      k ∈ [ "overwrite"; "overwrite_vars"; "update_on_launch";
            "update_on_project_update" ] →
      opt_get source k = VBool b →
      initialValues source !! k = Some (VBool b)) ∧
  (∀ n, opt_get source "update_cache_timeout" = VNum n →
        initialValues source !! "update_cache_timeout" = Some (VNum n)) ∧
  (∀ n, n ≠ 0%Z → opt_get source "verbosity" = VNum n →
        initialValues source !! "verbosity" = Some (VNum n)) ∧
  (∀ s, s ≠ "" → opt_get source "source_vars" = VStr s →
        initialValues source !! "source_vars" = Some (VStr s)) ∧
  (opt_get source "source_vars" = VStr "" →
   initialValues source !! "source_vars"
   = Some (VStr ("---" ++ String (Ascii.ascii_of_nat 10) ""))).
Proof.
  split; [| split; [| split; [| split; [| split]]]].
  - intros k s Hk Hs.
    rewrite (initialValues_direct source k (VStr "")).
    + rewrite Hs, js_or_same_default; [done |]. cbn.
      destruct (decide (s = "")) as [-> | Hne]; [done |].
      by rewrite bool_decide_eq_false_2.
    + repeat (apply elem_of_cons in Hk as [-> | Hk];
              [apply list_elem_of_In; simpl; tauto |]).
      by apply elem_of_nil in Hk.
  - intros k b Hk Hb.
    rewrite (initialValues_direct source k (VBool false)).
    + rewrite Hb, js_or_same_default; [done |]. cbn. by intros ->.
    + repeat (apply elem_of_cons in Hk as [-> | Hk];
              [apply list_elem_of_In; simpl; tauto |]).
      by apply elem_of_nil in Hk.
  - intros n Hn.
    rewrite (initialValues_direct source _ (VNum 0))
      by (apply list_elem_of_In; simpl; tauto).
    rewrite Hn, js_or_same_default; [done |]. cbn.
    destruct (Z.eqb_spec n 0) as [-> | Hne]; done.
  - intros n Hne Hn.
    rewrite (initialValues_direct source _ (VNum 1))
      by (apply list_elem_of_In; simpl; tauto).
    rewrite Hn, js_or_truthy; [done |]. cbn.
    by destruct (Z.eqb_spec n 0).
  - intros s Hne Hs.
    rewrite (initialValues_direct source _ (VStr yaml_start))
      by (apply list_elem_of_In; simpl; tauto).
    rewrite Hs, js_or_truthy; [done |]. cbn.
    by rewrite bool_decide_eq_false_2.
  - intros Hs.
    rewrite (initialValues_direct source _ (VStr yaml_start))
      by (apply list_elem_of_In; simpl; tauto).
    by rewrite Hs.
Qed.

(** X11. The credential, the source project and the source script of the
    form are the objects under the entity's [summary_fields], and [null]
    when there is none there; the entity's own field of that name, the
    number that refers to the object, is never what the form holds. *)
Theorem summary_fields_feed_references (source : js_value) (k : string) :
  k ∈ [ "credential"; "source_project"; "source_script" ] →
  (truthy (opt_get (opt_get source "summary_fields") k) = true →
   initialValues source !! k
   = Some (opt_get (opt_get source "summary_fields") k)) ∧
  (truthy (opt_get (opt_get source "summary_fields") k) = false →
   initialValues source !! k = Some VNull) ∧
  (∀ entity raw,
      entity !! "summary_fields" = None →
      initialValues (VObj (<[k := raw]> entity)) !! k = Some VNull).
Proof.
  intros Hk. split; [| split].
  - intros Htruthy. by rewrite initialValues_summary, js_or_truthy.
  - intros Hfalsy. by rewrite initialValues_summary, js_or_falsy.
  - intros entity raw Hnone. rewrite initialValues_summary by done.
    cbn [opt_get]. rewrite get_insert_ne by (intros ->; not_listed Hk).
    unfold get. by rewrite Hnone.
Qed.

(** X12. With no entity (the prop [undefined] or [null], or anything that is
    not an object) the form starts from the values a reset to the empty
    type writes, and from empty name, description and custom_virtualenv. *)
Theorem new_source_starts_from_defaults (source : js_value) :
  (∀ entity, source ≠ VObj entity) →
  (∀ k v, (k, v) ∈ defaults "" → initialValues source !! k = Some v) ∧
  (∀ k, k ∈ kept_fields → initialValues source !! k = Some (VStr "")).
Proof.
  intros Hsource.
  assert (Hnone : ∀ k, opt_get source k = VUndefined).
  { intros k. destruct source as [| | b | n | s | entity]; try done.
    by destruct (Hsource entity). }
  split.
  - intros k v Hin. unfold defaults in Hin.
    repeat (apply elem_of_cons in Hin as [[= -> ->] | Hin];
            [first
               [ rewrite initialValues_summary
                   by (apply list_elem_of_In; simpl; tauto);
                 by rewrite !Hnone
               | match goal with
                 | |- _ = Some ?d =>
                     rewrite (initialValues_direct source _ d)
                       by (apply list_elem_of_In; simpl; tauto)
                 end;
                 by rewrite Hnone
               | rewrite initialValues_source_path; by rewrite Hnone ] |]).
    by apply elem_of_nil in Hin.
  - intros k Hk. unfold kept_fields in Hk.
    repeat (apply elem_of_cons in Hk as [-> | Hk];
            [rewrite (initialValues_direct source _ (VStr ""))
               by (apply list_elem_of_In; simpl; tauto);
             by rewrite Hnone |]).
    by apply elem_of_nil in Hk.
Qed.

(** ** What the component renders *)

(** X15. Whatever the request reports, the component renders exactly one of
    three things: the error indicator as soon as the error is truthy, even
    while a result is held or a load is under way; otherwise the loading
    indicator while there is no result or a load is under way; otherwise
    the form, on the initial values of the entity, with the result as its
    options and the submit error it was given. *)
Theorem render_follows_request (source submitError : js_value)
    (req : request_state) :
  let rendered := InventorySourceForm source submitError req in
  (truthy (error req) = true → rendered = ContentError (error req)) ∧
  (rendered = ContentLoading ↔
   truthy (error req) = false ∧
   (result req = None ∨ isLoading req = true)) ∧
  (is_form rendered = true ↔
   truthy (error req) = false ∧ is_Some (result req) ∧
   isLoading req = false) ∧
  (∀ payload,
      truthy (error req) = false → result req = Some payload →
      isLoading req = false →
      rendered = FormikForm (initialValues source) payload submitError).
Proof.
  intros rendered. subst rendered. unfold InventorySourceForm.
  destruct req as [loading err [payload |]]; cbn [error result isLoading];
    destruct (truthy err), loading; cbn [is_form];
    (split; [| split; [| split]]);
    try done; try (intros payload' _ [= ->] _; done);
    try (split; [done | intros (? & ? & ?); done]);
    try (split; [done | intros (? & [? ?] & ?); done]);
    try (split; [done | intros [? [? | ?]]; done]);
    try (split; [intros _ | done]; eauto).
Qed.

(** ** The options of the two selects *)

Lemma filter_drops_all {A : Type} (P : A → Prop) `{!∀ x, Decision (P x)}
    (l : list A) :
  Forall (fun x => ¬ P x) l → filter P l = [].
Proof.
  induction 1 as [| x l Hx _ IH]; [done |].
  by rewrite filter_cons_False.
Qed.

Lemma buildSourceChoiceOptions_cons (choice label : js_value)
    (rest : list (js_value * js_value)) :
  buildSourceChoiceOptions {| choices := (choice, label) :: rest |}
  = if strict_ne_str choice "file"
    then {| opt_label := label; opt_key := choice; opt_value := choice;
            isDisabled := false |}
         :: buildSourceChoiceOptions {| choices := rest |}
    else buildSourceChoiceOptions {| choices := rest |}.
Proof.
  unfold buildSourceChoiceOptions. cbn [choices map].
  destruct (strict_ne_str choice "file") eqn:Hfile.
  - by rewrite filter_cons_True.
  - rewrite filter_cons_False; [done |]. cbn. by rewrite Hfile.
Qed.

(** X1. The choices built from a payload are its pairs in the order of
    the payload, those of code "file" left out and nothing else: codes and
    labels come out in sequence, every choice has its code as key and as
    value and is enabled, and a payload without "file" loses no pair. *)
Theorem source_choices_keep_payload_order (options : source_options) :
  opt_key <$> buildSourceChoiceOptions options
  = filter (fun code => strict_ne_str code "file" = true)
      ((choices options).*1) ∧
  opt_label <$> buildSourceChoiceOptions options
  = (filter (fun pair => strict_ne_str pair.1 "file" = true)
       (choices options)).*2 ∧
  (∀ o, o ∈ buildSourceChoiceOptions options →
        opt_value o = opt_key o ∧ isDisabled o = false) ∧
  (length (buildSourceChoiceOptions options) ≤ length (choices options))%nat ∧
  (Forall (fun pair => pair.1 ≠ VStr "file") (choices options) →
   length (buildSourceChoiceOptions options) = length (choices options)).
Proof.
  destruct options as [pairs].
  split; [| split; [| split; [| split]]].
  - induction pairs as [| [choice label] rest IH]; [done |].
    rewrite buildSourceChoiceOptions_cons. cbn [choices fmap list_fmap fst].
    destruct (strict_ne_str choice "file") eqn:Hfile.
    + rewrite filter_cons_True by done. cbn. f_equal. apply IH.
    + rewrite filter_cons_False by (by rewrite Hfile). apply IH.
  - induction pairs as [| [choice label] rest IH]; [done |].
    rewrite buildSourceChoiceOptions_cons. cbn [choices].
    destruct (strict_ne_str choice "file") eqn:Hfile.
    + rewrite filter_cons_True by done. cbn. f_equal. apply IH.
    + rewrite filter_cons_False by (cbn; by rewrite Hfile). apply IH.
  - intros o Ho. apply buildSourceChoiceOptions_elem in Ho
      as [_ [choice [label [_ ->]]]]. done.
  - induction pairs as [| [choice label] rest IH]; [done |].
    rewrite buildSourceChoiceOptions_cons. cbn [choices length] in *.
    destruct (strict_ne_str choice "file"); cbn [length]; lia.
  - induction pairs as [| [choice label] rest IH]; [done |].
    intros Hall. apply Forall_cons in Hall as [Hchoice Hall].
    rewrite buildSourceChoiceOptions_cons. cbn [choices length fst] in *.
    rewrite (proj2 (strict_ne_str_true _ _) Hchoice). cbn [length].
    by rewrite IH.
Qed.

Section Selects.

Variable i18n : string -> string.

(** X2. The source select always opens with the disabled
    "Choose a source" entry, of value the empty string, and has no other
    disabled entry; it is bound to the source field, whose value it shows;
    so a form mounted without a stored source type shows that entry. *)
Theorem source_select_placeholder (sourceOptions : source_options)
    (custom_virtualenvs : option (list string)) (f : Formik.formik) :
  let select :=
    source_select
      (InventorySourceFormFields i18n sourceOptions custom_virtualenvs f) in
  let placeholder :=
    {| opt_value := VStr ""; opt_key := VStr "";
       opt_label := VStr (i18n "Choose a source"); isDisabled := true |} in
  head (data select) = Some placeholder ∧
  filter (fun o => isDisabled o = true) (data select) = [placeholder] ∧
  Formik.name (bound select) = "source" ∧
  Formik.value (bound select) = get (Formik.values f) "source" ∧
  (∀ source,
      f = mount source → truthy (opt_get source "source") = false →
      Formik.value (bound select) = opt_value placeholder).
Proof.
  intros select placeholder. subst select placeholder.
  cbn [InventorySourceFormFields source_select data bound head
       Formik.useField Formik.name Formik.value opt_value].
  split; [done |]. split; [| split; [done | split; [done |]]].
  - rewrite filter_cons_True by done. f_equal.
    apply filter_drops_all, Forall_forall. intros o Ho.
    apply buildSourceChoiceOptions_elem in Ho
      as [_ [choice [label [_ ->]]]]. done.
  - intros source -> Hfalsy. cbn [mount Formik.values].
    rewrite (get_lookup _ _ _ (initialValues_source source)).
    by apply js_or_falsy.
Qed.

End Selects.

Lemma venv_option_value (venvs : list string) :
  opt_value <$> (venv_option <$> venvs) = VStr <$> venvs.
Proof. rewrite <- list_fmap_compose. done. Qed.

Lemma venv_option_key (venvs : list string) :
  opt_key <$> (venv_option <$> venvs) = VStr <$> venvs.
Proof. rewrite <- list_fmap_compose. done. Qed.

Lemma VStr_elem (s : string) (l : list string) : VStr s ∈ VStr <$> l ↔ s ∈ l.
Proof.
  rewrite list_elem_of_fmap. split.
  - by intros [s' [[= ->] Hin]].
  - intros Hin. by exists s.
Qed.

#[local] Instance VStr_inj : Inj (=) (=) VStr.
Proof. by intros s s' [= ->]. Qed.

Section EnvironmentOptions.

Variable i18n : string -> string.

(** X16. In a rendered environment selector the default path is the value
    of one option only, however often the configured list names it; the
    other options are one per remaining entry of the list, so the values
    are distinct exactly when those entries are; and the keys are distinct
    exactly when moreover no configured path is the word "default", the
    key of the default option. *)
Theorem environment_options_distinct (sourceOptions : source_options)
    (venvs : list string) (f : Formik.formik) :
  1 < length venvs →
  ∃ select,
    venv_group
      (InventorySourceFormFields i18n sourceOptions (Some venvs) f)
    = Some select ∧
    filter (fun o => strict_eq_str (opt_value o) "/venv/ansible/" = true)
      (data select)
    = [defaultVenv i18n] ∧
    length (data select)
    = S (length (filter (fun venv => venv ≠ "/venv/ansible/") venvs)) ∧
    (NoDup (opt_value <$> data select) ↔
     NoDup (filter (fun venv => venv ≠ "/venv/ansible/") venvs)) ∧
    (NoDup (opt_key <$> data select) ↔
     NoDup (filter (fun venv => venv ≠ "/venv/ansible/") venvs) ∧
     "default" ∉ venvs).
Proof.
  intros Hlen. cbn [InventorySourceFormFields venv_group].
  destruct (Nat.ltb_spec 1 (length venvs)) as [_ | Hshort]; [| lia].
  eexists. split; [reflexivity |]. cbn [data].
  assert (Hfilter :
    filter (fun v => strict_ne_str (VStr v) "/venv/ansible/" = true) venvs
    = filter (fun venv => venv ≠ "/venv/ansible/") venvs).
  { apply list_filter_iff. intros v. rewrite strict_ne_str_true.
    split; congruence. }
  rewrite Hfilter.
  set (others := filter (fun venv => venv ≠ "/venv/ansible/") venvs).
  assert (Hothers : ∀ venv, venv ∈ others ↔
                            venv ≠ "/venv/ansible/" ∧ venv ∈ venvs)
    by (intros venv; subst others;
        apply (list_elem_of_filter (fun venv => venv ≠ "/venv/ansible/"))).
  split; [| split; [| split]].
  - rewrite filter_cons_True by done. f_equal.
    apply filter_drops_all, Forall_forall. intros o Ho.
    apply list_elem_of_fmap in Ho as [venv [-> Hvenv]].
    apply Hothers in Hvenv as [Hne _].
    cbn. by rewrite bool_decide_eq_false_2.
  - cbn [length]. by rewrite length_fmap.
  - rewrite fmap_cons, venv_option_value, NoDup_cons.
    cbn [defaultVenv opt_value].
    rewrite VStr_elem, (NoDup_fmap VStr), Hothers. tauto.
  - rewrite fmap_cons, venv_option_key, NoDup_cons.
    cbn [defaultVenv opt_key].
    rewrite VStr_elem, (NoDup_fmap VStr), Hothers. split.
    + intros [Hdefault Hnodup]. split; [done |]. intros Hin.
      apply Hdefault. by split.
    + intros [Hnodup Hdefault]. split; [| done]. by intros [_ Hin].
Qed.

(** X17. The guard of the environment selector counts the entries of the
    configured list, not the distinct ones: a list of two or more entries
    that all name the default path renders a selector that offers the
    default option and nothing else. *)
Theorem environment_selector_of_defaults_only
    (sourceOptions : source_options) (venvs : list string)
    (f : Formik.formik) :
  1 < length venvs →
  Forall (fun venv => venv = "/venv/ansible/") venvs →
  option_map data
    (venv_group
       (InventorySourceFormFields i18n sourceOptions (Some venvs) f))
  = Some [defaultVenv i18n].
Proof.
  intros Hlen Hall. cbn [InventorySourceFormFields venv_group].
  destruct (Nat.ltb_spec 1 (length venvs)) as [_ | Hshort]; [| lia].
  cbn [option_map data]. rewrite filter_drops_all; [done |].
  eapply Forall_impl; [exact Hall |]. intros venv -> Hne.
  apply strict_ne_str_true in Hne. done.
Qed.

End EnvironmentOptions.

(** ** The type shown *)

Lemma foldl_form_step_source (f : Formik.formik) (es : list form_event) :
  Forall (fun e => ¬ selects_or_edits_source e) es →
  Formik.values (foldl form_step f es) !! "source"
  = Formik.values f !! "source".
Proof.
  revert f. induction es as [| e es IH]; intros f Hes; [done |].
  apply Forall_cons in Hes as [He Hes]. cbn [foldl]. rewrite IH by done.
  destruct e as [fieldName v | sourceType]; [| by destruct He].
  change (form_step f (Edit fieldName v))
    with (Formik.setFieldValue fieldName v f).
  by apply setFieldValue_lookup_ne.
Qed.

Section Shown.

Variable i18n : string -> string.

(** X18. At any point of a session the source field holds the type picked
    last, and the sub-form shown is the one that type keys: edits of other
    declared fields made since do not change what is shown. *)
Theorem last_selected_type_is_shown (sourceOptions : source_options)
    (custom_virtualenvs : option (list string)) (source : js_value)
    (sourceType : string) (before after : list form_event) :
  Forall on_declared_field after →
  Forall (fun e => ¬ selects_or_edits_source e) after →
  let f := form_after source (before ++ SelectSource sourceType :: after) in
  Formik.values f !! "source" = Some (VStr sourceType) ∧
  (∀ sub,
      sub_forms sourceOptions !! sourceType = Some sub →
      sub_form_block
        (InventorySourceFormFields i18n sourceOptions custom_virtualenvs f)
      = Some {| title := i18n "Source details"; body := Some sub |}).
Proof.
  intros _ Hafter f.
  assert (Hsource : Formik.values f !! "source" = Some (VStr sourceType)).
  { subst f. unfold form_after. rewrite foldl_app. cbn [foldl].
    rewrite foldl_form_step_source by done.
    cbn [form_step]. unfold source_onChange.
    apply resetSubFormFields_source. }
  split; [done |]. intros sub Hsub.
  cbn [InventorySourceFormFields sub_form_block Formik.useField Formik.value].
  rewrite (get_lookup _ _ _ Hsource).
  assert (Hne : sourceType ≠ "").
  { intros ->. by rewrite sub_forms_no_empty_code in Hsub. }
  unfold strict_ne_str, strict_eq_str.
  rewrite bool_decide_eq_false_2 by done. cbn [negb lookup_sub_form].
  by rewrite Hsub.
Qed.

End Shown.

(** ** Away and back *)

Lemma initialValues_has (source : js_value) (k : string) :
  k ∈ declared_fields → is_Some (initialValues source !! k).
Proof.
  intros Hk. apply elem_of_dom. rewrite initialValues_dom.
  by apply elem_of_list_to_set.
Qed.

(** X19. On a form just mounted, picking the type it was mounted with
    changes nothing, and moving to another type and back gives the mounted
    form again: current and initial values are those of the mount. *)
Theorem away_and_back_on_mounted_form (source : js_value)
    (original other : string) :
  get (initialValues source) "source" = VStr original →
  other ≠ original →
  resetSubFormFields original (mount source) = mount source ∧
  resetSubFormFields original (resetSubFormFields other (mount source))
  = mount source.
Proof.
  intros Horiginal Hother.
  assert (Hmounted : resetSubFormFields original (mount source)
                     = mount source).
  { rewrite resetSubFormFields_original by done.
    cbn [mount Formik.values Formik.initialValues].
    unfold Formik.resetForm, mount.
    rewrite (insert_get_id _ "name") by (apply initialValues_has; declared).
    rewrite (insert_get_id _ "description")
      by (apply initialValues_has; declared).
    rewrite (insert_get_id _ "custom_virtualenv")
      by (apply initialValues_has; declared).
    by rewrite insert_id by by apply get_is_str. }
  split; [done |].
  assert (Haway : get (Formik.initialValues (mount source)) "source"
                  ≠ VStr other)
    by (cbn [mount Formik.initialValues]; rewrite Horiginal; congruence).
  transitivity (resetSubFormFields original (mount source)); [| done].
  rewrite (resetSubFormFields_original (mount source) original Horiginal).
  rewrite (resetSubFormFields_original _ original)
    by by rewrite resetSubFormFields_other_initial.
  rewrite resetSubFormFields_other_initial by done.
  unfold Formik.resetForm.
  rewrite !(resetSubFormFields_kept (mount source) other)
    by (unfold kept_fields; apply list_elem_of_In; simpl; tauto).
  reflexivity.
Qed.

Section Mounted.

Variable i18n : string -> string.

(** X13. A form mounted on an entity shows the sub-form of the entity's
    stored type at once, under the heading, without any selection; a form
    mounted without a stored type shows no sub-form block. *)
Theorem stored_type_shows_its_sub_form (sourceOptions : source_options)
    (custom_virtualenvs : option (list string)) (source : js_value) :
  let block :=
    sub_form_block
      (InventorySourceFormFields i18n sourceOptions custom_virtualenvs
         (mount source)) in
  (∀ code sub,
      opt_get source "source" = VStr code →
      sub_forms sourceOptions !! code = Some sub →
      block = Some {| title := i18n "Source details"; body := Some sub |}) ∧
  (truthy (opt_get source "source") = false → block = None).
Proof.
  intros block. subst block.
  cbn [InventorySourceFormFields sub_form_block Formik.useField Formik.value
       mount Formik.values].
  rewrite (get_lookup _ _ _ (initialValues_source source)). split.
  - intros code sub Hcode Hsub. rewrite Hcode.
    assert (Hne : code ≠ "").
    { intros ->. by rewrite sub_forms_no_empty_code in Hsub. }
    rewrite js_or_truthy by (cbn; by rewrite bool_decide_eq_false_2).
    unfold strict_ne_str, strict_eq_str.
    rewrite bool_decide_eq_false_2 by done. cbn [negb lookup_sub_form].
    by rewrite Hsub.
  - intros Hfalsy. by rewrite js_or_falsy.
Qed.

(** X14. For an entity stored with the type "file" the form is mounted with
    that type in the source field, yet no entry of the source select has
    it as value, whatever the payload; and the sub-form block is the
    heading with nothing beneath it. *)
Theorem file_source_has_no_matching_choice (sourceOptions : source_options)
    (custom_virtualenvs : option (list string)) (source : js_value) :
  opt_get source "source" = VStr "file" →
  let rendered :=
    InventorySourceFormFields i18n sourceOptions custom_virtualenvs
      (mount source) in
  Formik.value (bound (source_select rendered)) = VStr "file" ∧
  (∀ o, o ∈ data (source_select rendered) → opt_value o ≠ VStr "file") ∧
  sub_form_block rendered
  = Some {| title := i18n "Source details"; body := None |}.
Proof.
  intros Hfile rendered. subst rendered.
  cbn [InventorySourceFormFields source_select sub_form_block data bound
       Formik.useField Formik.value mount Formik.values].
  rewrite (get_lookup _ _ _ (initialValues_source source)), Hfile.
  split; [done |]. split; [| done].
  intros o Ho. apply elem_of_cons in Ho as [-> | Ho]; [done |].
  apply buildSourceChoiceOptions_elem in Ho
    as [Hkey [choice [label [_ ->]]]]. done.
Qed.

End Mounted.

(** ** Instances *)

Lemma selected_type_shows_its_sub_form_witness :
  sub_form_block
    (InventorySourceFormFields (fun msg => msg) options_with_new_type None
       (source_onChange "ec2" (mount VUndefined)))
  = Some {| title := "Source details";
            body := Some (EC2SubForm options_with_new_type) |}.
Proof.
  apply (selected_type_shows_its_sub_form (fun msg => msg)).
  unfold sub_forms. read_literal.
Defined.

Lemma offered_type_without_sub_form_witness :
  sub_form_block
    (InventorySourceFormFields (fun msg => msg) options_with_new_type None
       (source_onChange "insights" (mount VUndefined)))
  = Some {| title := "Source details"; body := None |}.
Proof.
  refine (proj2 (offered_type_without_sub_form (fun msg => msg)
                   options_with_new_type None (mount VUndefined)
                   "insights" (VStr "Red Hat Insights") _ _ _ _ _)).
  - do 2 apply list_elem_of_further. apply list_elem_of_here.
  - discriminate.
  - discriminate.
  - intros Hin. not_listed Hin.
  - unfold sub_forms. read_literal.
Defined.

Lemma last_selection_decides_witness :
  resetSubFormFields "ec2" (resetSubFormFields "gce" edited_ec2_form)
  = resetSubFormFields "ec2" edited_ec2_form.
Proof.
  apply last_selection_decides. vm_compute. discriminate.
Defined.

Lemma kept_field_edit_survives_witness :
  get (Formik.values
         (form_after quiet_ec2_source
            ([SelectSource "gce"]
             ++ Edit "name" (VStr "aws west")
                :: [SelectSource "ec2"; Edit "source_regions" (VStr "eu")])))
      "name"
  = VStr "aws west".
Proof.
  refine (proj1 (kept_field_edit_survives quiet_ec2_source "name"
                   (VStr "aws west") [SelectSource "gce"]
                   [SelectSource "ec2"; Edit "source_regions" (VStr "eu")]
                   _ _ _)).
  - unfold kept_fields. apply list_elem_of_here.
  - repeat constructor; simpl; declared.
  - repeat constructor; cbn; [tauto | discriminate].
Defined.

Lemma reselect_entity_type_after_session_witness :
  Formik.values
    (form_after quiet_ec2_source
       ([ Edit "name" (VStr "aws west"); SelectSource "gce";
          Edit "source_regions" (VStr "us-east1") ]
        ++ [SelectSource "ec2"]))
    !! "source_regions"
  = initialValues quiet_ec2_source !! "source_regions".
Proof.
  apply reselect_entity_type_after_session.
  - vm_compute. reflexivity.
  - intros Hin. not_listed Hin.
Defined.

Lemma summary_fields_feed_references_witness :
  initialValues source_with_credential_id !! "credential" = Some VNull.
Proof.
  refine (proj2 (proj2 (summary_fields_feed_references VUndefined
                          "credential" _))
            (<["source" := VStr "ec2"]> ∅) (VNum 5) _).
  - apply list_elem_of_here.
  - reflexivity.
Defined.

Lemma new_source_starts_from_defaults_witness :
  initialValues VNull !! "verbosity" = Some (VNum 1).
Proof.
  refine (proj1 (new_source_starts_from_defaults VNull _) "verbosity"
            (VNum 1) _).
  - discriminate.
  - apply list_elem_of_In. simpl. tauto.
Defined.

Lemma file_source_has_no_matching_choice_witness :
  sub_form_block
    (InventorySourceFormFields (fun msg => msg) options_with_new_type None
       (mount file_source))
  = Some {| title := "Source details"; body := None |}.
Proof.
  refine (proj2 (proj2 (file_source_has_no_matching_choice (fun msg => msg)
                          options_with_new_type None file_source _))).
  vm_compute. reflexivity.
Defined.

Lemma environment_options_distinct_witness :
  ∃ select,
    venv_group
      (InventorySourceFormFields (fun msg => msg) options_with_new_type
         (Some [ "/venv/ansible/"; "/venv/custom/"; "/venv/ansible/" ])
         (mount VUndefined))
    = Some select ∧
    length (data select) = 2.
Proof.
  destruct (environment_options_distinct (fun msg => msg)
              options_with_new_type
              [ "/venv/ansible/"; "/venv/custom/"; "/venv/ansible/" ]
              (mount VUndefined)) as (select & Hgroup & _ & Hlength & _).
  - simpl. lia.
  - exists select. split; [exact Hgroup |]. exact Hlength.
Defined.

Lemma environment_selector_of_defaults_only_witness :
  option_map data
    (venv_group
       (InventorySourceFormFields (fun msg => msg) options_with_new_type
          (Some [ "/venv/ansible/"; "/venv/ansible/" ]) (mount VUndefined)))
  = Some [defaultVenv (fun msg => msg)].
Proof.
  apply environment_selector_of_defaults_only.
  - simpl. lia.
  - repeat constructor.
Defined.

Lemma last_selected_type_is_shown_witness :
  Formik.values
    (form_after quiet_ec2_source
       ([Edit "name" (VStr "aws west")]
        ++ SelectSource "gce" :: [Edit "source_regions" (VStr "us-east1")]))
    !! "source"
  = Some (VStr "gce").
Proof.
  refine (proj1 (last_selected_type_is_shown (fun msg => msg)
                   options_with_new_type None quiet_ec2_source "gce"
                   [Edit "name" (VStr "aws west")]
                   [Edit "source_regions" (VStr "us-east1")] _ _)).
  - repeat constructor; simpl; declared.
  - repeat constructor. cbn. discriminate.
Defined.

Lemma away_and_back_on_mounted_form_witness :
  resetSubFormFields "ec2" (resetSubFormFields "gce" (mount quiet_ec2_source))
  = mount quiet_ec2_source.
Proof.
  refine (proj2 (away_and_back_on_mounted_form quiet_ec2_source "ec2" "gce"
                   _ _)).
  - vm_compute. reflexivity.
  - discriminate.
Defined.
